(** * geofencingapp: location-aware cache and prayer-alarm logic

  A shallow embedding of [geofencingapp.py] and the properties of its
  distance calculation, cache store, freshness policy and alarm
  translation.

  Conventions of the embedding.
  - Python [float] and [int] values are idealised as real numbers [R]:
    rounding, infinities and NaN are outside the model.  What remains
    of [math.sqrt]'s partiality (a negative argument) is kept.
  - A raised exception is a value [Raise e] of the [result] type.
  - The clock ([datetime.now()]) is an explicit argument [today].
  - Library routines the program calls ([dict.get], [min],
    [datetime.strptime], [str] of a date, [datetime - timedelta]) are
    written out after their CPython definitions. *)

From Stdlib Require Import ZArith List String Ascii Bool Lia.
From Stdlib Require Import Reals Lra Machin Factorial.
Import ListNotations.

(* ================================================================== *)
(** * Part I: the program *)
(* ================================================================== *)

(** ** Python values and exceptions *)

Module Py.

Inductive exn : Set :=
| AttributeError
| TypeError
| ValueError
| KeyError
| OverflowError
| JSONDecodeError.

Inductive result (A : Type) : Type :=
| Ok (a : A)
| Raise (e : exn).
Arguments Ok {A} a.
Arguments Raise {A} e.

Definition bind {A B : Type} (m : result A) (k : A -> result B) : result B :=
  match m with
  | Ok a => k a
  | Raise e => Raise e
  end.

(** The values [json.load] can return; [JNull] is Python's [None].
    An object keeps its members in insertion order. *)
#[local] Unset Elimination Schemes.
Inductive json : Type :=
| JNull
| JBool (b : bool)
| JNum (x : R)
| JStr (s : string)
| JArr (items : list json)
| JObj (members : list (string * json)).
#[local] Set Elimination Schemes.

Fixpoint assoc {V : Type} (k : string) (l : list (string * V)) : option V :=
  match l with
  | [] => None
  | (k', v) :: rest => if String.eqb k k' then Some v else assoc k rest
  end.

(** [d.get(k)]: only a dict has the attribute; a missing key gives
    [None]. *)
Definition get (d : json) (k : string) : result json :=
  match d with
  | JObj members =>
      match assoc k members with
      | Some v => Ok v
      | None => Ok JNull
      end
  | _ => Raise AttributeError
  end.

(** A value used as an operand of float arithmetic: [bool] is a
    subclass of [int]; [None], strings, lists and dicts raise
    [TypeError]. *)
Definition as_float (v : json) : result R :=
  match v with
  | JNum x => Ok x
  | JBool true => Ok 1%R
  | JBool false => Ok 0%R
  | _ => Raise TypeError
  end.

(** A value passed where [str] is required. *)
Definition as_str (v : json) : result string :=
  match v with
  | JStr s => Ok s
  | _ => Raise TypeError
  end.

End Py.

Export Py.

Declare Scope py_scope.
Delimit Scope py_scope with py.
Notation "x <- m ;; k" := (bind m (fun x => k))
(at level 61, m at next level, right associativity) : py_scope.
Open Scope py_scope.

(** ** Constants for caching and radius *)

Definition CACHE_FILE : string := "mosque_data.json".
Definition CACHE_RADIUS : Z := 30000.
Definition UPDATE_DISTANCE : Z := 20000.
Definition PRAYER_BUFFER_MINUTES : Z := 5.
Definition SILENCE_DURATION : Z := 30.

(** ** Distance with the haversine formula *)

Module Geo.
Local Open Scope R_scope.

(** [math.radians] *)
Definition radians (x : R) : R := x * (PI / 180).

(** [math.sqrt]: a negative argument is a math domain error. *)
Definition py_sqrt (x : R) : result R :=
  if Rlt_dec x 0 then Raise ValueError else Ok (sqrt x).

(** [math.atan2 y x]: the angle of the point [(x, y)], in
    [(-PI, PI]]. *)
Definition atan2 (y x : R) : R :=
  if Rlt_dec 0 x then atan (y / x)
  else if Rlt_dec x 0 then
    (if Rle_dec 0 y then atan (y / x) + PI else atan (y / x) - PI)
  else if Rlt_dec 0 y then PI / 2
  else if Rlt_dec y 0 then - (PI / 2)
  else 0.

(** The quantity [a] of the source. *)
Definition hav_a (lat1 lon1 lat2 lon2 : R) : R :=
  let dlat := radians (lat2 - lat1) in
  let dlon := radians (lon2 - lon1) in
  sin (dlat / 2) ^ 2
  + cos (radians lat1) * cos (radians lat2) * sin (dlon / 2) ^ 2.

Definition haversine (lat1 lon1 lat2 lon2 : R) : result R :=
  let R_km := 6371 in
  let a := hav_a lat1 lon1 lat2 lon2 in
  sqrt_a <- py_sqrt a ;;
  sqrt_1a <- py_sqrt (1 - a) ;;
  let c := 2 * atan2 sqrt_a sqrt_1a in
  let distance := R_km * c in
  Ok (distance * 1000).


End Geo.

Export Geo.

(** ** Calendar: [datetime.date], [datetime.datetime], [timedelta] *)

Module Cal.
Local Open Scope Z_scope.

Record date : Set := mkdate { year : Z; month : Z; day : Z }.

Definition MINYEAR : Z := 1.
Definition MAXYEAR : Z := 9999.
Definition MAXORDINAL : Z := 3652059.

Definition is_leap (y : Z) : bool :=
  (y mod 4 =? 0) && (negb (y mod 100 =? 0) || (y mod 400 =? 0)).

Definition DAYS_IN_MONTH : list Z :=
  [-1; 31; 28; 31; 30; 31; 30; 31; 31; 30; 31; 30; 31].

Definition DAYS_BEFORE_MONTH : list Z :=
  [-1; 0; 31; 59; 90; 120; 151; 181; 212; 243; 273; 304; 334].

Definition days_in_month (y m : Z) : Z :=
  if (m =? 2) && is_leap y then 29
  else nth (Z.to_nat m) DAYS_IN_MONTH 0.

Definition days_before_year (y : Z) : Z :=
  let y := y - 1 in y * 365 + y / 4 - y / 100 + y / 400.

Definition days_before_month (y m : Z) : Z :=
  nth (Z.to_nat m) DAYS_BEFORE_MONTH 0
  + (if (2 <? m) && is_leap y then 1 else 0).

Definition ymd2ord (y m d : Z) : Z :=
  days_before_year y + days_before_month y m + d.

Definition toordinal (d : date) : Z := ymd2ord (year d) (month d) (day d).

(** The range check of the [date] constructor. *)
Definition valid_ymd (y m d : Z) : bool :=
  (MINYEAR <=? y) && (y <=? MAXYEAR)
  && (1 <=? m) && (m <=? 12)
  && (1 <=? d) && (d <=? days_in_month y m).

Definition valid_date (d : date) : bool :=
  valid_ymd (year d) (month d) (day d).

Definition make_date (y m d : Z) : result date :=
  if valid_ymd y m d then Ok (mkdate y m d) else Raise ValueError.

(** [a > b] on dates compares the triples (year, month, day). *)
Definition date_gt (a b : date) : bool :=
  (year b <? year a)
  || ((year a =? year b)
      && ((month b <? month a)
          || ((month a =? month b) && (day b <? day a)))).

(** [date.fromordinal]. *)
Definition ord2ymd (n : Z) : date :=
  let n := n - 1 in
  let n400 := n / 146097 in
  let n := n mod 146097 in
  let y := n400 * 400 + 1 in
  let n100 := n / 36524 in
  let n := n mod 36524 in
  let n4 := n / 1461 in
  let n := n mod 1461 in
  let n1 := n / 365 in
  let n := n mod 365 in
  let y := y + n100 * 100 + n4 * 4 + n1 in
  if (n1 =? 4) || (n100 =? 4) then mkdate (y - 1) 12 31
  else
    let leapyear := (n1 =? 3) && (negb (n4 =? 24) || (n100 =? 3)) in
    let m := Z.shiftr (n + 50) 5 in
    let preceding :=
      nth (Z.to_nat m) DAYS_BEFORE_MONTH 0
      + (if (2 <? m) && leapyear then 1 else 0) in
    if n <? preceding then
      let m := m - 1 in
      let preceding :=
        preceding
        - (nth (Z.to_nat m) DAYS_IN_MONTH 0
           + (if (m =? 2) && leapyear then 1 else 0)) in
      mkdate y m (n - preceding + 1)
    else mkdate y m (n - preceding + 1).

(** *** Decimal text *)

Definition digit_char (d : Z) : ascii := ascii_of_nat (48 + Z.to_nat d).

Definition digit_of (c : ascii) : option Z :=
  let n := Z.of_nat (nat_of_ascii c) in
  if (48 <=? n) && (n <=? 57) then Some (n - 48) else None.

(** ["%02d" % n] and ["%04d" % n], for [n] within the field. *)
Definition fmt_02d (n : Z) : list ascii :=
  [digit_char (n / 10); digit_char (n mod 10)].

Definition fmt_04d (n : Z) : list ascii :=
  [digit_char (n / 1000); digit_char (n / 100 mod 10);
   digit_char (n / 10 mod 10); digit_char (n mod 10)].

Definition dash : ascii := "-"%char.

(** [str(d)] for a date is [d.isoformat()]: ["%04d-%02d-%02d"]. *)
Definition date_str (d : date) : string :=
  string_of_list_ascii
    (fmt_04d (year d) ++ dash :: fmt_02d (month d)
       ++ dash :: fmt_02d (day d)).

(** *** [datetime.strptime(s, "%Y-%m-%d").date()]

    The format compiles to the regular expression
    [(\d\d\d\d)-(1[0-2]|0[1-9]|[1-9])-(3[01]|[12]\d|0[1-9]|[1-9]| [1-9])],
    matched at the start of [s]; text left over, or fields that are not
    a date, raise [ValueError].  Each group takes its alternatives in
    order. *)

Definition in_range (lo hi : Z) (c : ascii) : option Z :=
  match digit_of c with
  | Some v => if (lo <=? v) && (v <=? hi) then Some v else None
  | None => None
  end.

Definition parse_Y (s : list ascii) : option (Z * list ascii) :=
  match s with
  | a :: b :: c :: d :: rest =>
      match digit_of a, digit_of b, digit_of c, digit_of d with
      | Some a, Some b, Some c, Some d =>
          Some (1000 * a + 100 * b + 10 * c + d, rest)
      | _, _, _, _ => None
      end
  | _ => None
  end.

Definition parse_one_digit (s : list ascii) : option (Z * list ascii) :=
  match s with
  | c :: rest =>
      match in_range 1 9 c with
      | Some v => Some (v, rest)
      | None => None
      end
  | [] => None
  end.

Definition parse_m (s : list ascii) : option (Z * list ascii) :=
  match s with
  | c1 :: c2 :: rest =>
      match in_range 1 1 c1, in_range 0 2 c2 with
      | Some _, Some v => Some (10 + v, rest)
      | _, _ =>
          match in_range 0 0 c1, in_range 1 9 c2 with
          | Some _, Some v => Some (v, rest)
          | _, _ => parse_one_digit s
          end
      end
  | _ => parse_one_digit s
  end.

Definition parse_d (s : list ascii) : option (Z * list ascii) :=
  match s with
  | c1 :: c2 :: rest =>
      match in_range 3 3 c1, in_range 0 1 c2 with
      | Some _, Some v => Some (30 + v, rest)
      | _, _ =>
          match in_range 1 2 c1, in_range 0 9 c2 with
          | Some u, Some v => Some (10 * u + v, rest)
          | _, _ =>
              match in_range 0 0 c1, in_range 1 9 c2 with
              | Some _, Some v => Some (v, rest)
              | _, _ =>
                  match parse_one_digit s with
                  | Some r => Some r
                  | None =>
                      if Ascii.eqb c1 " "%char then
                        match in_range 1 9 c2 with
                        | Some v => Some (v, rest)
                        | None => None
                        end
                      else None
                  end
              end
          end
      end
  | _ => parse_one_digit s
  end.

Definition expect_dash (s : list ascii) : option (list ascii) :=
  match s with
  | c :: rest => if Ascii.eqb c dash then Some rest else None
  | [] => None
  end.

Definition strptime_date (s : string) : result date :=
  match parse_Y (list_ascii_of_string s) with
  | None => Raise ValueError
  | Some (y, s1) =>
      match expect_dash s1 with
      | None => Raise ValueError
      | Some s2 =>
          match parse_m s2 with
          | None => Raise ValueError
          | Some (m, s3) =>
              match expect_dash s3 with
              | None => Raise ValueError
              | Some s4 =>
                  match parse_d s4 with
                  | None => Raise ValueError
                  | Some (d, []) => make_date y m d
                  | Some (_, _ :: _) => Raise ValueError
                  end
              end
          end
      end
  end.

(** *** [datetime.datetime]

    Every datetime of the program has whole minutes: prayer times come
    from [strptime(..., "%H:%M")] and the lead is a number of minutes. *)

Record datetime : Set := mkdatetime { dt_date : date; hour : Z; minute : Z }.

(** [datetime.strptime(s, "%H:%M")] for a text denoting [h]:[m]: the
    date defaults to 1900-01-01. *)
Definition time_of_day (h m : Z) : datetime := mkdatetime (mkdate 1900 1 1) h m.

Definition is_time_of_day (t : datetime) : bool :=
  (year (dt_date t) =? 1900) && (month (dt_date t) =? 1)
  && (day (dt_date t) =? 1)
  && (0 <=? hour t) && (hour t <? 24)
  && (0 <=? minute t) && (minute t <? 60).

(** [a < b] on datetimes compares (year, month, day, hour, minute). *)
Definition datetime_lt (a b : datetime) : bool :=
  date_gt (dt_date b) (dt_date a)
  || (negb (date_gt (dt_date a) (dt_date b))
      && ((hour a <? hour b)
          || ((hour a =? hour b) && (minute a <? minute b)))).

(** [t - timedelta(minutes=m)]: the difference is normalised to days
    and a remainder, and a day outside [1 .. MAXORDINAL] is an
    [OverflowError]. *)
Definition sub_minutes (t : datetime) (m : Z) : result datetime :=
  let total := toordinal (dt_date t) * 1440 + hour t * 60 + minute t - m in
  let days := total / 1440 in
  let rem := total mod 1440 in
  if (0 <? days) && (days <=? MAXORDINAL)
  then Ok (mkdatetime (ord2ymd days) (rem / 60) (rem mod 60))
  else Raise OverflowError.

(** [str(t)]: ["%04d-%02d-%02d %02d:%02d:%02d"], seconds being zero. *)
Definition datetime_str (t : datetime) : string :=
  (date_str (dt_date t) ++ " "
   ++ string_of_list_ascii (fmt_02d (hour t)) ++ ":"
   ++ string_of_list_ascii (fmt_02d (minute t)) ++ ":00")%string.

End Cal.

Export Cal.

(** ** The durable cache *)

Module Cache.

(** A file is identified with what [json.load] makes of its bytes: the
    value they encode, or a decoding error.  [json.dump v] writes bytes
    that encode [v]. *)
Inductive file : Type :=
| Document (v : json)
| Malformed.

(** The files by path; [None] where [os.path.exists] is false. *)
Definition filesystem : Type := string -> option file.

Definition no_files : filesystem := fun _ => None.

(** [open(path, "w")] followed by a complete write. *)
Definition write_file (fs : filesystem) (path : string) (f : file)
  : filesystem :=
  fun p => if String.eqb p path then Some f else fs p.

(** The record [cache_mosque_data] builds. *)
Definition cache_data (today : date) (mosques : json) (lat lon : R) : json :=
  JObj [ ("mosques", mosques);
         ("last_lat", JNum lat);
         ("last_lon", JNum lon);
         ("last_update", JStr (date_str today)) ]%string.

Definition cache_mosque_data (today : date) (mosques : json) (lat lon : R)
  (fs : filesystem) : filesystem :=
  write_file fs CACHE_FILE (Document (cache_data today mosques lat lon)).

Definition load_cached_mosque_data (fs : filesystem) : result json :=
  match fs CACHE_FILE with
  | Some (Document v) => Ok v
  | Some Malformed => Raise JSONDecodeError
  | None => Ok JNull
  end.

Definition should_update_cache (today : date) (current_lat current_lon : R)
  (cached_data : json) : result bool :=
  last_lat <- get cached_data "last_lat" ;;
  last_lon <- get cached_data "last_lon" ;;
  last_update <- get cached_data "last_update" ;;
  lat2 <- as_float last_lat ;;
  lon2 <- as_float last_lon ;;
  distance <- haversine current_lat current_lon lat2 lon2 ;;
  if Rlt_dec (IZR UPDATE_DISTANCE) distance then Ok true
  else
    s <- as_str last_update ;;
    fetched <- strptime_date s ;;
    if date_gt today fetched then Ok true else Ok false.

(** A present cache record: a dict whose position fields are the
    numbers [lat] and [lon] and whose update field is the text of the
    date [fetched]. *)
Definition record_fields (c : json) (lat lon : R) (fetched : date) : Prop :=
  exists (v1 v2 : json) (s : string),
    get c "last_lat" = Ok v1 /\ as_float v1 = Ok lat /\
    get c "last_lon" = Ok v2 /\ as_float v2 = Ok lon /\
    get c "last_update" = Ok (JStr s) /\ strptime_date s = Ok fetched.

End Cache.

Export Cache.

(** ** Prayer times: next prayer and alarms *)

Module Prayer.

(** A [prayer_times] dict, in insertion order. *)
Definition schedule : Set := list (string * datetime).

(** [prayer_times[p]] *)
Definition lookup (prayer_times : schedule) (p : string) : result datetime :=
  match assoc p prayer_times with
  | Some t => Ok t
  | None => Raise KeyError
  end.

(** [min(iterable, key=f)]: the first item is the candidate, and a
    later item replaces it only when its key is strictly smaller; an
    empty iterable is a [ValueError]. *)
Fixpoint min_loop (best : string) (best_key : datetime)
  (rest : list string) (f : string -> result datetime) : result string :=
  match rest with
  | [] => Ok best
  | p :: rest' =>
      k <- f p ;;
      if datetime_lt k best_key then min_loop p k rest' f
      else min_loop best best_key rest' f
  end.

Definition py_min (items : list string) (f : string -> result datetime)
  : result string :=
  match items with
  | [] => Raise ValueError
  | p :: rest => k <- f p ;; min_loop p k rest f
  end.

(** The [next_prayer] of [fetch_prayer_times_and_schedule_alarms]. *)
Definition next_prayer (prayer_times : schedule) : result string :=
  py_min (map fst prayer_times) (fun p => lookup prayer_times p).

Definition prayer_time_label (prayer_times : schedule) : result string :=
  p <- next_prayer prayer_times ;;
  Ok ("Next prayer: " ++ p)%string.

(** What [schedule_prayer_alarms] prints, one line per alarm. *)
Inductive line : Set :=
| ScheduledAlarm (prayer : string) (alarm_time : datetime).

Definition render (l : line) : string :=
  match l with
  | ScheduledAlarm prayer alarm_time =>
      ("Scheduled alarm for " ++ prayer ++ " at "
       ++ datetime_str alarm_time)%string
  end.

Definition line_of_alarm (a : string * datetime) : line :=
  ScheduledAlarm (fst a) (snd a).

Definition line_prayer (l : line) : string :=
  match l with ScheduledAlarm prayer _ => prayer end.

(** The state the function runs in: the dict it is handed, which it
    could write to, and the standard output. *)
Record world : Set := mkworld { prayer_times : schedule; stdout : list line }.

Fixpoint schedule_loop (items : list (string * datetime))
  (out : list line) : list line * result unit :=
  match items with
  | [] => (out, Ok tt)
  | (prayer, time) :: rest =>
      match sub_minutes time PRAYER_BUFFER_MINUTES with
      | Ok alarm_time =>
          schedule_loop rest (out ++ [ScheduledAlarm prayer alarm_time])
      | Raise e => (out, Raise e)
      end
  end.

Definition schedule_prayer_alarms (w : world) : world * result unit :=
  let (out, r) := schedule_loop (prayer_times w) (stdout w) in
  (mkworld (prayer_times w) out, r).

(** The translator as the specification words it: for each entry, the
    label with the event time minus [lead] minutes, as time-of-day
    arithmetic: the minute of the day is reduced modulo a day and the
    calendar day moves back by the days borrowed. *)
Definition trigger_spec (lead : Z) (t : datetime) : datetime :=
  let x := (hour t * 60 + minute t - lead)%Z in
  mkdatetime (ord2ymd (toordinal (dt_date t) + x / 1440)%Z)
    (x mod 1440 / 60)%Z (x mod 1440 mod 60)%Z.

Definition to_alarms_spec (s : schedule) (lead : Z)
  : list (string * datetime) :=
  map (fun e => (fst e, trigger_spec lead (snd e))) s.

(** [next_event] as the specification words it: the entry with the
    least time strictly after [now] if there is one, otherwise the
    entry with the least time of all. *)
Fixpoint earliest (best : string * datetime) (rest : schedule)
  : string * datetime :=
  match rest with
  | [] => best
  | e :: rest' =>
      if datetime_lt (snd e) (snd best) then earliest e rest'
      else earliest best rest'
  end.

Definition next_event_spec (now : datetime) (s : schedule)
  : option (string * datetime) :=
  match filter (fun e => datetime_lt now (snd e)) s with
  | e :: later => Some (earliest e later)
  | [] =>
      match s with
      | e :: rest => Some (earliest e rest)
      | [] => None
      end
  end.

End Prayer.

Export Prayer.

(** ** More of Python's dynamic operations *)

Module Dyn.

(** [needle in hay] on two strings: a substring test. *)
Fixpoint contains (needle hay : string) : bool :=
  String.prefix needle hay
  || match hay with
     | EmptyString => false
     | String _ rest => contains needle rest
     end.

Definition is_str (k : string) (v : json) : bool :=
  match v with
  | JStr s => String.eqb s k
  | _ => false
  end.

(** [k in obj] for a string [k]: a key of a dict, an item of a list, a
    substring of a string; other values are not iterable. *)
Definition py_in (k : string) (obj : json) : result bool :=
  match obj with
  | JObj members =>
      Ok (match assoc k members with Some _ => true | None => false end)
  | JArr items => Ok (existsb (is_str k) items)
  | JStr s => Ok (contains k s)
  | _ => Raise TypeError
  end.

(** [obj[k]] for a string [k]: a missing key is a [KeyError]; lists and
    strings take integer indices and the other values no index at all. *)
Definition subscript (obj : json) (k : string) : result json :=
  match obj with
  | JObj members =>
      match assoc k members with
      | Some v => Ok v
      | None => Raise KeyError
      end
  | _ => Raise TypeError
  end.

(** [obj.get(k, default)] *)
Definition get_default (obj : json) (k : string) (default : json)
  : result json :=
  match obj with
  | JObj members =>
      Ok (match assoc k members with Some v => v | None => default end)
  | _ => Raise AttributeError
  end.

(** [for x in obj]: the items of a list, the keys of a dict, the
    characters of a string (one item per byte here). *)
Definition iterate (obj : json) : result (list json) :=
  match obj with
  | JArr items => Ok items
  | JObj members => Ok (map (fun e => JStr (fst e)) members)
  | JStr s =>
      Ok (map (fun c => JStr (String c EmptyString)) (list_ascii_of_string s))
  | _ => Raise TypeError
  end.

End Dyn.

Export Dyn.

(** ** The two fetchers

    The HTTP exchange is the environment of the program.  A response
    that arrived is its status code and its body, the body being
    identified, like a file, with what the JSON decoder makes of it. *)

Module Fetch.
Local Open Scope Z_scope.

Record response : Type := mkresponse { status_code : Z; body : file }.

(** [response.json()] *)
Definition response_json (r : response) : result json :=
  match body r with
  | Document v => Ok v
  | Malformed => Raise JSONDecodeError
  end.

(** *** [datetime.strptime(s, "%H:%M")]

    The format compiles to [(2[0-3]|[0-1]\d|\d):([0-5]\d|\d)], matched
    at the start of [s]; text left over raises [ValueError]; the date
    defaults to 1900-01-01. *)

Definition colon : ascii := ":"%char.

Definition parse_digit (s : list ascii) : option (Z * list ascii) :=
  match s with
  | c :: rest =>
      match in_range 0 9 c with
      | Some v => Some (v, rest)
      | None => None
      end
  | [] => None
  end.

Definition parse_H (s : list ascii) : option (Z * list ascii) :=
  match s with
  | c1 :: c2 :: rest =>
      match in_range 2 2 c1, in_range 0 3 c2 with
      | Some _, Some v => Some (20 + v, rest)
      | _, _ =>
          match in_range 0 1 c1, in_range 0 9 c2 with
          | Some u, Some v => Some (10 * u + v, rest)
          | _, _ => parse_digit s
          end
      end
  | _ => parse_digit s
  end.

Definition parse_M (s : list ascii) : option (Z * list ascii) :=
  match s with
  | c1 :: c2 :: rest =>
      match in_range 0 5 c1, in_range 0 9 c2 with
      | Some u, Some v => Some (10 * u + v, rest)
      | _, _ => parse_digit s
      end
  | _ => parse_digit s
  end.

Definition expect_colon (s : list ascii) : option (list ascii) :=
  match s with
  | c :: rest => if Ascii.eqb c colon then Some rest else None
  | [] => None
  end.

Definition strptime_hm (s : string) : result datetime :=
  match parse_H (list_ascii_of_string s) with
  | None => Raise ValueError
  | Some (h, s1) =>
      match expect_colon s1 with
      | None => Raise ValueError
      | Some s2 =>
          match parse_M s2 with
          | None => Raise ValueError
          | Some (m, []) => Ok (time_of_day h m)
          | Some (_, _ :: _) => Raise ValueError
          end
      end
  end.

(** *** [fetch_prayer_times]

    [timings] is the object found at
    [response.json()['data']['timings']], a dict and so with distinct
    labels; the dict comprehension goes through its keys in order,
    looks each one up and parses the text it finds. *)
Fixpoint parse_timings (keys : list string) (timings : list (string * json))
  : result schedule :=
  match keys with
  | [] => Ok []
  | prayer :: rest =>
      v <- subscript (JObj timings) prayer ;;
      s <- as_str v ;;
      t <- strptime_hm s ;;
      others <- parse_timings rest timings ;;
      Ok ((prayer, t) :: others)
  end.

Definition response_timings (r : response) : result json :=
  data <- response_json r ;;
  d <- subscript data "data" ;;
  subscript d "timings".

Definition fetch_prayer_times (timings : list (string * json))
  : result schedule :=
  parse_timings (map fst timings) timings.

(** *** [fetch_mosque_locations]

    The request goes to [overpass_url] alone: the query text built
    from [lat], [lon] and [radius] is not passed to [requests.get]. *)

Definition overpass_url : string := "http://overpass-api.de/api/interpreter".

(** One dict of the list comprehension. *)
Definition mosque_of (element : json) : result json :=
  tags <- get_default element "tags" (JObj []) ;;
  name <- get_default tags "name" (JStr "Unnamed Mosque") ;;
  lat <- subscript element "lat" ;;
  lon <- subscript element "lon" ;;
  Ok (JObj [("name", name); ("lat", lat); ("lon", lon)]%string).

(** [... for element in ... if 'lat' in element and 'lon' in element] *)
Fixpoint mosques_of (elements : list json) : result (list json) :=
  match elements with
  | [] => Ok []
  | element :: rest =>
      has_lat <- py_in "lat" element ;;
      keep <- (if has_lat : bool then py_in "lon" element else Ok false) ;;
      if keep : bool then
        m <- mosque_of element ;;
        ms <- mosques_of rest ;;
        Ok (m :: ms)
      else mosques_of rest
  end.

(** The elements the service documents are dicts whose tags, when
    present, are a dict; for those, whether the element is kept and
    the entry it gives. *)
Definition plain_element (element : json) : Prop :=
  exists members : list (string * json),
    element = JObj members /\
    (assoc "tags" members = None \/
     exists tags, assoc "tags" members = Some (JObj tags)).

Definition has_position (element : json) : bool :=
  match element with
  | JObj members =>
      match assoc "lat" members, assoc "lon" members with
      | Some _, Some _ => true
      | _, _ => false
      end
  | _ => false
  end.

Definition name_of (element : json) : json :=
  match element with
  | JObj members =>
      match assoc "tags" members with
      | Some (JObj tags) =>
          match assoc "name" tags with
          | Some name => name
          | None => JStr "Unnamed Mosque"
          end
      | _ => JStr "Unnamed Mosque"
      end
  | _ => JStr "Unnamed Mosque"
  end.

Definition field_of (k : string) (element : json) : json :=
  match element with
  | JObj members =>
      match assoc k members with
      | Some v => v
      | None => JNull
      end
  | _ => JNull
  end.

Definition entry_of (element : json) : json :=
  JObj [("name", name_of element); ("lat", field_of "lat" element);
        ("lon", field_of "lon" element)]%string.

Definition fetch_mosque_locations (net : string -> response)
  (lat lon : R) (radius : Z) : result json :=
  let response := net overpass_url in
  if status_code response =? 200 then
    data <- response_json response ;;
    elements <- subscript data "elements" ;;
    items <- iterate elements ;;
    mosques <- mosques_of items ;;
    Ok (JArr mosques)
  else Ok (JArr []).

End Fetch.

Export Fetch.

(** ** The application *)

Module App.

(** The labels of the main window and the position of the user, which
    is not set before [request_location_permission] runs. *)
Record MosqueApp : Type := mkapp {
  location_label : string;
  prayer_label : string;
  mosque_label : string;
  cache_status_label : string;
  user_position : option (R * R)
}.

Definition set_location_label (a : MosqueApp) (text : string) : MosqueApp :=
  mkapp text (prayer_label a) (mosque_label a) (cache_status_label a)
    (user_position a).

Definition set_prayer_label (a : MosqueApp) (text : string) : MosqueApp :=
  mkapp (location_label a) text (mosque_label a) (cache_status_label a)
    (user_position a).

Definition set_user_position (a : MosqueApp) (lat lon : R) : MosqueApp :=
  mkapp (location_label a) (prayer_label a) (mosque_label a)
    (cache_status_label a) (Some (lat, lon)).

(** [timings] is what the prayer-times service answers for the
    position of the user. *)
Definition fetch_prayer_times_and_schedule_alarms
  (timings : list (string * json)) (a : MosqueApp) (out : list line)
    : MosqueApp * list line * result unit :=
  match user_position a with
  | None => (a, out, Raise AttributeError)
  | Some _ =>
      match fetch_prayer_times timings with
      | Raise e => (a, out, Raise e)
      | Ok prayer_times =>
          match next_prayer prayer_times with
          | Raise e => (a, out, Raise e)
          | Ok p =>
              let a' := set_prayer_label a ("Next prayer: " ++ p) in
              let (w, r) := schedule_prayer_alarms (mkworld prayer_times out) in
              (a', stdout w, r)
          end
      end
  end.

Definition request_location_permission
  (timings : list (string * json)) (a : MosqueApp) (out : list line)
    : MosqueApp * list line * result unit :=
  let a := set_location_label a "Location permission granted." in
  let a := set_user_position a 24.7136 46.6753 in
  fetch_prayer_times_and_schedule_alarms timings a out.

(** The window as [startup] builds it. *)
Definition initial_app : MosqueApp :=
  mkapp "Fetching location..." "Fetching prayer times..."
    "Mosque status: Not checked yet." "Cache status: Not loaded yet." None.

Definition startup (timings : list (string * json)) (out : list line)
    : MosqueApp * list line * result unit :=
  request_location_permission timings initial_app out.

End App.

Export App.

(* ================================================================== *)
(** * Part II: properties *)
(* ================================================================== *)

(** ** The distance calculator *)

Section GeoFacts.
Local Open Scope R_scope.

Lemma sin_half_sqr (x : R) : sin (x / 2) ^ 2 = (1 - cos x) / 2.
Proof.
  replace x with (2 * (x / 2)) at 2 by field.
  rewrite cos_2a_sin. field.
Qed.

Lemma radians_minus (x y : R) : radians (x - y) = radians x - radians y.
Proof. unfold radians. ring. Qed.

(** The quantity under the square roots is a convex combination of two
    numbers of [[0, 1]], so neither square root can fail. *)
Lemma hav_a_range (lat1 lon1 lat2 lon2 : R) :
  0 <= hav_a lat1 lon1 lat2 lon2 <= 1.
Proof.
  unfold hav_a. cbv zeta.
  rewrite (sin_half_sqr (radians (lat2 - lat1))), radians_minus, cos_minus.
  set (s := sin (radians (lon2 - lon1) / 2) ^ 2).
  assert (Hs : 0 <= s <= 1).
  { unfold s. rewrite sin_half_sqr.
    pose proof (COS_bound (radians (lon2 - lon1))). lra. }
  pose proof (COS_bound (radians lat2 - radians lat1)) as Hm.
  pose proof (COS_bound (radians lat2 + radians lat1)) as Hp.
  rewrite cos_minus in Hm. rewrite cos_plus in Hp.
  set (c1 := cos (radians lat1)) in *. set (c2 := cos (radians lat2)) in *.
  set (s1 := sin (radians lat1)) in *. set (s2 := sin (radians lat2)) in *.
  split; nra.
Qed.

Lemma py_sqrt_nonneg (x : R) : 0 <= x -> py_sqrt x = Ok (sqrt x).
Proof.
  intros Hx. unfold py_sqrt. destruct (Rlt_dec x 0); [lra | reflexivity].
Qed.

(** [haversine] always returns, and returns this number. *)
Lemma haversine_value (lat1 lon1 lat2 lon2 : R) :
  haversine lat1 lon1 lat2 lon2 =
  Ok (6371 * (2 * atan2 (sqrt (hav_a lat1 lon1 lat2 lon2))
                        (sqrt (1 - hav_a lat1 lon1 lat2 lon2))) * 1000).
Proof.
  pose proof (hav_a_range lat1 lon1 lat2 lon2) as [H0 H1].
  unfold haversine. cbv zeta.
  rewrite (py_sqrt_nonneg _ H0). cbn [bind].
  rewrite py_sqrt_nonneg by lra. reflexivity.
Qed.


Lemma hav_a_refl (lat lon : R) : hav_a lat lon lat lon = 0.
Proof.
  unfold hav_a. cbv zeta.
  rewrite !sin_half_sqr, !radians_minus.
  rewrite !Rminus_diag, cos_0. field.
Qed.


Lemma haversine_refl (lat lon : R) : haversine lat lon lat lon = Ok 0.
Proof.
  rewrite haversine_value, hav_a_refl, Rminus_0_r, sqrt_0, sqrt_1.
  unfold atan2. destruct (Rlt_dec 0 1); [| lra].
  replace (0 / 1) with 0 by field. rewrite atan_0.
  f_equal. ring.
Qed.

(** *** Numerical enclosures *)

Lemma PI_bounds : 3.1415 < PI < 3.1416.
Proof.
  pose proof (PI_2_3_7_ineq 2) as [Hlo Hhi].
  unfold PI_2_3_7_tg, tg_alt, Ratan_seq in Hlo, Hhi.
  simpl in Hlo, Hhi.
  split; lra.
Qed.

Lemma INR_fact_val (n : nat) (z : Z) :
  Z.of_nat (fact n) = z -> INR (fact n) = IZR z.
Proof. intros <-. apply INR_IZR_INZ. Qed.

Lemma sin_lb_eq x : sin_lb x = x - x^3/6 + x^5/120 - x^7/5040.
Proof.
  unfold sin_lb, sin_approx, sin_term, sum_f_R0.
  cbn [Nat.mul Nat.add].
  rewrite (INR_fact_val 1 1), (INR_fact_val 3 6), (INR_fact_val 5 120),
    (INR_fact_val 7 5040) by (vm_compute; reflexivity).
  field.
Qed.

Lemma cos_lb_eq x : cos_lb x = 1 - x^2/2 + x^4/24 - x^6/720.
Proof.
  unfold cos_lb, cos_approx, cos_term, sum_f_R0.
  cbn [Nat.mul Nat.add].
  rewrite (INR_fact_val 0 1), (INR_fact_val 2 2), (INR_fact_val 4 24),
    (INR_fact_val 6 720) by (vm_compute; reflexivity).
  field.
Qed.

Lemma cos_ub_eq x : cos_ub x = 1 - x^2/2 + x^4/24 - x^6/720 + x^8/40320.
Proof.
  unfold cos_ub, cos_approx, cos_term, sum_f_R0.
  cbn [Nat.mul Nat.add].
  rewrite (INR_fact_val 0 1), (INR_fact_val 2 2), (INR_fact_val 4 24),
    (INR_fact_val 6 720), (INR_fact_val 8 40320) by (vm_compute; reflexivity).
  field.
Qed.

Lemma sin_ge (l x : R) :
  0 <= l -> l <= x -> x <= 1 -> l - l^3/6 <= sin x.
Proof.
  intros H0 Hlx Hx. pose proof PI_bounds as [Hp _].
  apply Rle_trans with (sin l).
  - apply Rle_trans with (sin_lb l).
    + rewrite sin_lb_eq.
      assert (0 <= l^5 * (42 - l^2)).
      { apply Rmult_le_pos; [apply pow_le; lra | nra]. }
      lra.
    + apply SIN; lra.
  - apply sin_incr_1; lra.
Qed.

Lemma sin_le (x u : R) : 0 <= x -> x <= u -> sin x <= u.
Proof.
  intros H0 Hxu. destruct (Req_dec x 0) as [-> | Hne].
  - rewrite sin_0. lra.
  - pose proof (sin_lt_x x). lra.
Qed.

Lemma cos_ge (x u : R) :
  0 <= x -> x <= u -> u <= 1 -> 1 - u^2/2 + u^4/24 - u^6/720 <= cos x.
Proof.
  intros H0 Hxu Hu. pose proof PI_bounds as [Hp _].
  rewrite <- cos_lb_eq.
  apply Rle_trans with (cos u).
  - apply COS; lra.
  - apply cos_decr_1; lra.
Qed.

Lemma cos_le (l x : R) :
  0 <= l -> l <= x -> x <= 1 ->
  cos x <= 1 - l^2/2 + l^4/24 - l^6/720 + l^8/40320.
Proof.
  intros H0 Hlx Hx. pose proof PI_bounds as [Hp _].
  rewrite <- cos_ub_eq.
  apply Rle_trans with (cos l).
  - apply cos_decr_1; lra.
  - apply COS; lra.
Qed.

Lemma sin_sqr_opp (x : R) : sin (- x) ^ 2 = sin x ^ 2.
Proof. rewrite sin_neg. ring. Qed.

Lemma hav_a_riyadh_jeddah :
  0.00439 <= hav_a 24.7136 46.6753 21.4858 39.1925 <= 0.0044.
Proof.
  pose proof PI_bounds as [Hp1 Hp2].
  unfold hav_a. cbv zeta.
  replace (radians (21.4858 - 24.7136) / 2) with (- (3.2278 * PI / 360))
    by (unfold radians; lra).
  replace (radians (39.1925 - 46.6753) / 2) with (- (7.4828 * PI / 360))
    by (unfold radians; lra).
  rewrite !sin_sqr_opp.
  replace (radians 24.7136) with (24.7136 * PI / 180) by (unfold radians; lra).
  replace (radians 21.4858) with (21.4858 * PI / 180) by (unfold radians; lra).
  set (x1 := 3.2278 * PI / 360). set (x2 := 7.4828 * PI / 360).
  set (f1 := 24.7136 * PI / 180). set (f2 := 21.4858 * PI / 180).
  assert (Hx1 : 0.028167 <= x1 <= 0.028168) by (unfold x1; lra).
  assert (Hx2 : 0.065297 <= x2 <= 0.0653) by (unfold x2; lra).
  assert (Hf1 : 0.4313 <= f1 <= 0.431335) by (unfold f1; lra).
  assert (Hf2 : 0.37498 <= f2 <= 0.374999) by (unfold f2; lra).
  assert (Hs1 : 0.028163 <= sin x1 <= 0.02817).
  { split.
    - apply Rle_trans with (0.028167 - 0.028167^3/6); [lra |].
      apply sin_ge; lra.
    - apply sin_le; lra. }
  assert (Hs2 : 0.06525 <= sin x2 <= 0.0653).
  { split.
    - apply Rle_trans with (0.065297 - 0.065297^3/6); [lra |].
      apply sin_ge; lra.
    - apply sin_le; lra. }
  assert (Hc1 : 0.9084 <= cos f1 <= 0.9085).
  { split.
    - eapply Rle_trans; [| apply (cos_ge f1 0.431335); lra]. lra.
    - eapply Rle_trans; [apply (cos_le 0.4313 f1); lra |]. lra. }
  assert (Hc2 : 0.9305 <= cos f2 <= 0.9306).
  { split.
    - eapply Rle_trans; [| apply (cos_ge f2 0.374999); lra]. lra.
    - eapply Rle_trans; [apply (cos_le 0.37498 f2); lra |]. lra. }
  clearbody x1 x2 f1 f2.
  set (s1 := sin x1) in *. set (s2 := sin x2) in *.
  set (c1 := cos f1) in *. set (c2 := cos f2) in *.
  clearbody s1 s2 c1 c2.
  assert (Hs1s : 0.000793 <= s1 ^ 2 <= 0.0007936) by nra.
  assert (Hs2s : 0.0042575 <= s2 ^ 2 <= 0.0042641) by nra.
  assert (Hcc : 0.84526 <= c1 * c2 <= 0.84546) by nra.
  set (p := s1 ^ 2) in *. set (q := s2 ^ 2) in *. set (cc := c1 * c2) in *.
  clearbody p q cc.
  split; nra.
Qed.

Lemma atan_le (x y : R) : x <= y -> atan x <= atan y.
Proof.
  intros [Hlt | ->]; [left; apply atan_increasing; exact Hlt | right; reflexivity].
Qed.

Lemma cos_ge_half (l : R) : 0 <= l -> l <= 1 -> 1 - l^2/2 <= cos l.
Proof.
  intros H0 H1. apply Rle_trans with (1 - l^2/2 + l^4/24 - l^6/720).
  - assert (0 <= l^4 * (30 - l^2)).
    { apply Rmult_le_pos; [apply pow_le; lra | nra]. }
    lra.
  - apply cos_ge; lra.
Qed.

(** An angle [u] bounds [atan y] from above once [y] is below the
    cubic lower bound of [sin u], which is below [tan u]. *)
Lemma atan_upper (y u : R) :
  0 <= u -> u <= 1 -> y <= u - u^3/6 -> atan y <= u.
Proof.
  intros H0 H1 Hy. pose proof PI_bounds as [Hp _].
  rewrite <- (atan_tan u) by lra.
  apply atan_le. apply Rle_trans with (1 := Hy).
  pose proof (sin_ge u u H0 (Rle_refl u) H1) as Hs.
  pose proof (cos_ge_half u H0 H1) as Hc.
  pose proof (COS_bound u) as [_ Hc1].
  assert (Hcpos : 0 < cos u) by nra.
  unfold tan. apply Rle_trans with (1 := Hs).
  apply (Rmult_le_reg_r (cos u)); [exact Hcpos |].
  unfold Rdiv. rewrite Rmult_assoc, Rinv_l by (apply Rgt_not_eq; assumption).
  assert (0 <= sin u) by nra.
  nra.
Qed.

(** An angle [l] bounds [atan y] from below once [l / (1 - l^2/2)],
    which is above [tan l], is at most [y]. *)
Lemma atan_lower (l y : R) :
  0 <= l -> l <= 1 -> l <= y * (1 - l^2/2) -> l <= atan y.
Proof.
  intros H0 H1 Hy. pose proof PI_bounds as [Hp _].
  rewrite <- (atan_tan l) at 1 by lra.
  apply atan_le.
  pose proof (sin_le l l H0 (Rle_refl l)) as Hs.
  pose proof (cos_ge_half l H0 H1) as Hc.
  assert (Hcpos : 0 < cos l) by nra.
  assert (Hk : / 2 <= 1 - l^2/2) by nra.
  assert (Hypos : 0 <= y).
  { destruct (Rle_dec 0 y) as [Hy0 | Hy0]; [exact Hy0 | exfalso].
    apply Rnot_le_lt in Hy0.
    assert (y * (1 - l^2/2) < 0) by (apply Ropp_lt_cancel; nra).
    lra. }
  unfold tan.
  apply (Rmult_le_reg_r (cos l)); [exact Hcpos |].
  unfold Rdiv. rewrite Rmult_assoc, Rinv_l by (apply Rgt_not_eq; assumption).
  nra.
Qed.

Lemma atan2_sqrt (a : R) :
  0 <= a -> a < 1 ->
  atan2 (sqrt a) (sqrt (1 - a)) = atan (sqrt (a / (1 - a))).
Proof.
  intros H0 H1.
  assert (Hpos : 0 < sqrt (1 - a)) by (apply sqrt_lt_R0; lra).
  unfold atan2. destruct (Rlt_dec 0 (sqrt (1 - a))); [| lra].
  rewrite sqrt_div by lra. reflexivity.
Qed.

Lemma sqrt_between (lo hi x : R) :
  0 <= lo -> lo ^ 2 <= x -> x <= hi ^ 2 -> 0 <= hi -> lo <= sqrt x <= hi.
Proof.
  intros Hlo H1 H2 Hhi. split.
  - rewrite <- (sqrt_pow2 lo Hlo). apply sqrt_le_1_alt. exact H1.
  - rewrite <- (sqrt_pow2 hi Hhi). apply sqrt_le_1_alt. exact H2.
Qed.

Lemma riyadh_jeddah_angle :
  0.06605 <=
  atan2 (sqrt (hav_a 24.7136 46.6753 21.4858 39.1925))
        (sqrt (1 - hav_a 24.7136 46.6753 21.4858 39.1925)) <= 0.0673.
Proof.
  pose proof hav_a_riyadh_jeddah as [Ha1 Ha2].
  set (a := hav_a 24.7136 46.6753 21.4858 39.1925) in *. clearbody a.
  rewrite atan2_sqrt by lra.
  assert (Hq : 0.0663 ^ 2 <= a / (1 - a) <= 0.067 ^ 2).
  { split.
    - apply (Rmult_le_reg_r (1 - a)); [lra |].
      unfold Rdiv. rewrite Rmult_assoc, Rinv_l by lra. nra.
    - apply (Rmult_le_reg_r (1 - a)); [lra |].
      unfold Rdiv. rewrite Rmult_assoc, Rinv_l by lra. nra. }
  destruct Hq as [Hq1 Hq2].
  pose proof (sqrt_between 0.0663 0.067 (a / (1 - a))) as Hy.
  destruct Hy as [Hy1 Hy2]; try lra.
  split.
  - apply atan_lower; nra.
  - apply atan_upper; nra.
Qed.

(** *** Agreement with the haversine formula *)

Lemma atan2_asin (a : R) :
  0 <= a <= 1 -> atan2 (sqrt a) (sqrt (1 - a)) = asin (sqrt a).
Proof.
  intros [H0 [H1 | ->]].
  - rewrite atan2_sqrt by lra.
    assert (Hs : 0 <= sqrt a < 1).
    { split; [apply sqrt_pos |].
      rewrite <- sqrt_1. apply sqrt_lt_1_alt. lra. }
    rewrite asin_atan by lra.
    rewrite Rsqr_sqrt by lra. rewrite sqrt_div by lra. reflexivity.
  - rewrite Rminus_diag, sqrt_0, sqrt_1, asin_1.
    unfold atan2.
    destruct (Rlt_dec 0 0); [lra |].
    destruct (Rlt_dec 0 1); [reflexivity | lra].
Qed.



End GeoFacts.



(** ** Dates and their text *)

Section CalFacts.
Local Open Scope Z_scope.

(** Case analysis on a small integer. *)
Ltac small_cases x :=
  destruct x as [| p | p]; try lia;
  repeat (destruct p as [p | p |]; try lia).

Lemma digit_of_digit_char (k : Z) :
  0 <= k <= 9 -> digit_of (digit_char k) = Some k.
Proof. intros H. small_cases k; reflexivity. Qed.

Lemma parse_Y_fmt (y : Z) (rest : list ascii) :
  0 <= y <= 9999 -> parse_Y (fmt_04d y ++ rest) = Some (y, rest).
Proof.
  intros Hy. unfold fmt_04d, parse_Y. cbn [app].
  rewrite !digit_of_digit_char
    by (Z.to_euclidean_division_equations; lia).
  do 2 f_equal. Z.to_euclidean_division_equations; lia.
Qed.

Lemma parse_m_fmt (m : Z) (rest : list ascii) :
  1 <= m <= 12 ->
  parse_m (fmt_02d m ++ dash :: rest) = Some (m, dash :: rest).
Proof. intros H. small_cases m; reflexivity. Qed.

Lemma parse_d_fmt (d : Z) :
  1 <= d <= 31 -> parse_d (fmt_02d d) = Some (d, []).
Proof. intros H. small_cases d; reflexivity. Qed.

Lemma days_in_month_le_31 (y m : Z) :
  1 <= m <= 12 -> days_in_month y m <= 31.
Proof.
  intros H. unfold days_in_month.
  destruct ((m =? 2) && is_leap y); [lia |].
  small_cases m; apply Z.leb_le; reflexivity.
Qed.

Lemma valid_ymd_bounds (y m d : Z) :
  valid_ymd y m d = true ->
  1 <= y <= 9999 /\ 1 <= m <= 12 /\ 1 <= d <= days_in_month y m.
Proof.
  unfold valid_ymd, MINYEAR, MAXYEAR.
  rewrite !andb_true_iff, !Z.leb_le. lia.
Qed.

(** Reading back the text of a date gives the date. *)
Lemma strptime_date_str (d : date) :
  valid_date d = true -> strptime_date (date_str d) = Ok d.
Proof.
  destruct d as [y m dd]. unfold valid_date. cbn [year month day].
  intros Hv. pose proof (valid_ymd_bounds _ _ _ Hv) as (Hy & Hm & Hd).
  pose proof (days_in_month_le_31 y m Hm) as H31.
  unfold strptime_date, date_str. cbn [year month day].
  rewrite list_ascii_of_string_of_list_ascii.
  rewrite parse_Y_fmt by lia.
  cbn [expect_dash]. rewrite Ascii.eqb_refl.
  rewrite parse_m_fmt by lia.
  cbn [expect_dash]. rewrite Ascii.eqb_refl.
  rewrite parse_d_fmt by lia.
  unfold make_date. rewrite Hv. reflexivity.
Qed.

Lemma date_gt_irrefl (d : date) : date_gt d d = false.
Proof.
  unfold date_gt. rewrite !Z.ltb_irrefl, !Z.eqb_refl. reflexivity.
Qed.

End CalFacts.

(** ** The cache store and the freshness policy *)

Section CacheFacts.

Variables (today : date) (current_lat current_lon : R).

Lemma saved_record_fields (fetched : date) (mosques : json) (lat lon : R) :
  valid_date fetched = true ->
  record_fields (cache_data fetched mosques lat lon) lat lon fetched.
Proof.
  intros Hv. exists (JNum lat), (JNum lon), (date_str fetched).
  repeat split; try reflexivity. apply strptime_date_str, Hv.
Qed.

(** The policy on a present record, as a function of the distance and
    of the two dates. *)
Lemma should_update_cache_present (c : json) (lat lon : R) (fetched : date) :
  record_fields c lat lon fetched ->
  exists d : R,
    haversine current_lat current_lon lat lon = Ok d /\
    should_update_cache today current_lat current_lon c =
    Ok (if Rlt_dec 20000 d then true else date_gt today fetched).
Proof.
  intros (v1 & v2 & s & H1 & F1 & H2 & F2 & H3 & P).
  eexists. split; [apply haversine_value |].
  unfold should_update_cache.
  rewrite H1, H2, H3. cbn [bind]. rewrite F1, F2. cbn [bind].
  rewrite haversine_value. cbn [bind].
  change (IZR UPDATE_DISTANCE) with 20000%R.
  destruct (Rlt_dec 20000 _); [reflexivity |].
  cbn [as_str bind]. rewrite P. cbn [bind].
  destruct (date_gt today fetched); reflexivity.
Qed.

Lemma haversine_inj (lat lon d d' : R) :
  haversine current_lat current_lon lat lon = Ok d ->
  haversine current_lat current_lon lat lon = Ok d' -> d = d'.
Proof. intros H H'. rewrite H in H'. injection H' as Heq. exact Heq. Qed.

End CacheFacts.

(** C1. With no record ([None], which is what
    [load_cached_mosque_data] returns when there is no cache file)
    [should_update_cache] does not answer [True]: it raises
    [AttributeError] at its first statement. *)
Theorem absent_record_raises_attribute_error :
  load_cached_mosque_data no_files = Ok JNull /\
  forall (today : date) (current_lat current_lon : R),
    should_update_cache today current_lat current_lon JNull
    = Raise AttributeError.
Proof. split; reflexivity. Qed.

(** C3. On a present record, when the distance from the current
    coordinate to the record's coordinate is at most 20 000 m and today
    is not later than the fetch date (the same day, or a fetch date in
    the future), [should_update_cache] returns [False]. *)
Theorem fresh_when_near_and_not_a_later_day
  (today : date) (current_lat current_lon : R)
  (c : json) (lat lon : R) (fetched : date) (d : R) :
  record_fields c lat lon fetched ->
  haversine current_lat current_lon lat lon = Ok d ->
  (d <= 20000)%R ->
  date_gt today fetched = false ->
  should_update_cache today current_lat current_lon c = Ok false.
Proof.
  intros Hrec Hd Hle Hdate.
  destruct (should_update_cache_present today current_lat current_lon
              c lat lon fetched Hrec) as (d' & Hd' & ->).
  rewrite (haversine_inj _ _ _ _ _ _ Hd' Hd), Hdate.
  destruct (Rlt_dec 20000 d); [lra | reflexivity].
Qed.

(** C4. On a present record, when the distance from the current
    coordinate to the record's coordinate exceeds 20 000 m,
    [should_update_cache] returns [True], whatever the two dates are
    and so also on the day of the fetch. *)
Theorem refresh_when_moved_beyond_threshold
  (today : date) (current_lat current_lon : R)
  (c : json) (lat lon : R) (fetched : date) (d : R) :
  record_fields c lat lon fetched ->
  haversine current_lat current_lon lat lon = Ok d ->
  (20000 < d)%R ->
  should_update_cache today current_lat current_lon c = Ok true.
Proof.
  intros Hrec Hd Hlt.
  destruct (should_update_cache_present today current_lat current_lon
              c lat lon fetched Hrec) as (d' & Hd' & ->).
  rewrite (haversine_inj _ _ _ _ _ _ Hd' Hd).
  destruct (Rlt_dec 20000 d); [reflexivity | lra].
Qed.


Lemma fresh_when_near_and_not_a_later_day_witness :
  record_fields (cache_data (mkdate 2024 3 16) (JArr []) 24.7136 46.6753)
    24.7136 46.6753 (mkdate 2024 3 16) /\
  haversine 24.7136 46.6753 24.7136 46.6753 = Ok 0%R /\
  (0 <= 20000)%R /\
  date_gt (mkdate 2024 3 15) (mkdate 2024 3 16) = false /\
  should_update_cache (mkdate 2024 3 15) 24.7136 46.6753
    (cache_data (mkdate 2024 3 16) (JArr []) 24.7136 46.6753)
  = Ok false.
Proof.
  assert (Hrec : record_fields
                   (cache_data (mkdate 2024 3 16) (JArr []) 24.7136 46.6753)
                   24.7136 46.6753 (mkdate 2024 3 16))
    by (apply saved_record_fields; reflexivity).
  assert (Hd : haversine 24.7136 46.6753 24.7136 46.6753 = Ok 0%R)
    by apply haversine_refl.
  assert (Hle : (0 <= 20000)%R) by lra.
  repeat split; try assumption.
  exact (fresh_when_near_and_not_a_later_day (mkdate 2024 3 15) _ _ _ _ _ _ _
           Hrec Hd Hle eq_refl).
Defined.

Lemma refresh_when_moved_beyond_threshold_witness :
  exists d : R,
    record_fields (cache_data (mkdate 2024 3 15) (JArr []) 21.4858 39.1925)
      21.4858 39.1925 (mkdate 2024 3 15) /\
    haversine 24.7136 46.6753 21.4858 39.1925 = Ok d /\
    (20000 < d)%R /\
    should_update_cache (mkdate 2024 3 15) 24.7136 46.6753
      (cache_data (mkdate 2024 3 15) (JArr []) 21.4858 39.1925)
    = Ok true.
Proof.
  assert (Hrec : record_fields
                   (cache_data (mkdate 2024 3 15) (JArr []) 21.4858 39.1925)
                   21.4858 39.1925 (mkdate 2024 3 15))
    by (apply saved_record_fields; reflexivity).
  pose proof (haversine_value 24.7136 46.6753 21.4858 39.1925) as Hd.
  assert (Hlt : (20000 <
                 6371 * (2 * atan2
                           (sqrt (hav_a 24.7136 46.6753 21.4858 39.1925))
                           (sqrt (1 - hav_a 24.7136 46.6753 21.4858 39.1925)))
                 * 1000)%R)
    by (pose proof riyadh_jeddah_angle; lra).
  eexists. repeat split; try eassumption.
  exact (refresh_when_moved_beyond_threshold (mkdate 2024 3 15) _ _ _ _ _ _ _
           Hrec Hd Hlt).
Defined.


(** C9, as stated, fails: a cache file that exists but does not decode
    makes [load_cached_mosque_data] raise instead of returning [None]. *)
Lemma corrupt_cache_file_raises :
  load_cached_mosque_data (write_file no_files CACHE_FILE Malformed)
  = Raise JSONDecodeError /\
  load_cached_mosque_data (write_file no_files CACHE_FILE Malformed)
  <> Ok JNull.
Proof. split; [reflexivity | discriminate]. Qed.

(** C9, amended. [load_cached_mosque_data] returns [None] when no
    cache file exists; when the file exists it returns the decoded
    value, and the decoding error of a corrupt file propagates to the
    caller. *)
Theorem load_none_when_missing_error_when_corrupt (fs : filesystem) :
  (fs CACHE_FILE = None -> load_cached_mosque_data fs = Ok JNull) /\
  (forall v : json,
      fs CACHE_FILE = Some (Document v) ->
      load_cached_mosque_data fs = Ok v) /\
  (fs CACHE_FILE = Some Malformed ->
   load_cached_mosque_data fs = Raise JSONDecodeError).
Proof.
  unfold load_cached_mosque_data.
  repeat split; intros; match goal with H : _ = _ |- _ => rewrite H end;
    reflexivity.
Qed.

Lemma load_none_when_missing_error_when_corrupt_witness :
  no_files CACHE_FILE = None /\ load_cached_mosque_data no_files = Ok JNull.
Proof.
  split; [reflexivity |].
  exact (proj1 (load_none_when_missing_error_when_corrupt no_files) eq_refl).
Defined.

(** C10. Saving and then loading returns the record that was saved:
    the POI list, the coordinate of the fetch and the fetch date, the
    date being read back from its text. *)
Theorem save_then_load_round_trip
  (today : date) (mosques : json) (lat lon : R) (fs : filesystem) :
  valid_date today = true ->
  load_cached_mosque_data (cache_mosque_data today mosques lat lon fs)
  = Ok (cache_data today mosques lat lon) /\
  get (cache_data today mosques lat lon) "mosques" = Ok mosques /\
  record_fields (cache_data today mosques lat lon) lat lon today.
Proof.
  intros Hv. split; [| split].
  - unfold load_cached_mosque_data, cache_mosque_data, write_file.
    cbv beta. rewrite String.eqb_refl. reflexivity.
  - reflexivity.
  - apply saved_record_fields, Hv.
Qed.

Lemma save_then_load_round_trip_witness :
  valid_date (mkdate 2024 2 29) = true /\
  load_cached_mosque_data
    (cache_mosque_data (mkdate 2024 2 29)
       (JArr [JObj [("name", JStr "Unnamed Mosque");
                    ("lat", JNum 24.71); ("lon", JNum 46.67)]%string])
       24.7136 46.6753 no_files)
  = Ok (cache_data (mkdate 2024 2 29)
          (JArr [JObj [("name", JStr "Unnamed Mosque");
                       ("lat", JNum 24.71); ("lon", JNum 46.67)]%string])
          24.7136 46.6753).
Proof.
  split; [reflexivity |].
  exact (proj1 (save_then_load_round_trip (mkdate 2024 2 29) _ _ _ no_files
                  eq_refl)).
Defined.

(** ** Next prayer and alarms *)

Section PrayerFacts.
Local Open Scope Z_scope.

Lemma assoc_unique (s : schedule) (p : string) (t : datetime) :
  NoDup (map fst s) -> In (p, t) s -> assoc p s = Some t.
Proof.
  induction s as [| [k v] rest IH]; intros Hnd Hin; [destruct Hin |].
  cbn [map fst] in Hnd. inversion Hnd as [| ? ? Hnotin Hnd']; subst.
  cbn [assoc]. destruct Hin as [Heq | Hin].
  - injection Heq as -> ->. rewrite String.eqb_refl. reflexivity.
  - destruct (String.eqb_spec p k) as [-> | Hne].
    + exfalso. apply Hnotin. apply (in_map fst) in Hin. exact Hin.
    + apply IH; assumption.
Qed.

(** [min] scans for the earliest entry, whatever the current time. *)
Lemma min_loop_earliest (f : string -> result datetime) (l : schedule) :
  (forall p t, In (p, t) l -> f p = Ok t) ->
  forall (best : string) (best_key : datetime),
    min_loop best best_key (map fst l) f
    = Ok (fst (earliest (best, best_key) l)).
Proof.
  induction l as [| [p t] l' IH]; intros Hf best best_key; [reflexivity |].
  cbn [map fst min_loop earliest snd].
  rewrite (Hf p t) by (left; reflexivity). cbn [bind].
  destruct (datetime_lt t best_key);
    apply IH; intros q u Hin; apply Hf; right; exact Hin.
Qed.

Lemma next_prayer_earliest (e : string * datetime) (rest : schedule) :
  NoDup (map fst (e :: rest)) ->
  next_prayer (e :: rest) = Ok (fst (earliest e rest)).
Proof.
  intros Hnd. destruct e as [p t]. unfold next_prayer.
  cbn [map fst py_min].
  unfold lookup at 1. cbn [assoc]. rewrite String.eqb_refl. cbn [bind].
  apply min_loop_earliest. intros q u Hin.
  unfold lookup. rewrite (assoc_unique ((p, t) :: rest) q u Hnd);
    [reflexivity | right; exact Hin].
Qed.

Lemma time_of_day_fields (t : datetime) :
  is_time_of_day t = true ->
  exists h mi : Z,
    t = time_of_day h mi /\ 0 <= h < 24 /\ 0 <= mi < 60.
Proof.
  destruct t as [[y m d] h mi]. unfold is_time_of_day, time_of_day.
  cbn [dt_date year month day hour minute].
  rewrite !andb_true_iff, !Z.eqb_eq, !Z.leb_le, !Z.ltb_lt.
  intros [[[[[[-> ->] ->] ?] ?] ?] ?]. exists h, mi. repeat split; assumption.
Qed.

(** On a time of day the subtraction of the program is the
    time-of-day arithmetic of the specification, and it cannot
    overflow. *)
Lemma sub_minutes_time_of_day (t : datetime) :
  is_time_of_day t = true ->
  sub_minutes t PRAYER_BUFFER_MINUTES
  = Ok (trigger_spec PRAYER_BUFFER_MINUTES t).
Proof.
  intros Ht. destruct (time_of_day_fields t Ht) as (h & mi & -> & Hh & Hm).
  unfold sub_minutes, trigger_spec, time_of_day, PRAYER_BUFFER_MINUTES,
    MAXORDINAL.
  cbn [dt_date hour minute].
  change (toordinal (mkdate 1900 1 1)) with 693596.
  replace (693596 * 1440 + h * 60 + mi - 5)
    with (h * 60 + mi - 5 + 693596 * 1440) by ring.
  rewrite Z_div_plus_full, Z_mod_plus_full by lia.
  assert (Hq : -1 <= (h * 60 + mi - 5) / 1440 <= 0)
    by (Z.to_euclidean_division_equations; lia).
  replace ((0 <? (h * 60 + mi - 5) / 1440 + 693596)
           && ((h * 60 + mi - 5) / 1440 + 693596 <=? 3652059))
    with true
    by (symmetry; apply andb_true_iff; split;
        [apply Z.ltb_lt | apply Z.leb_le]; lia).
  rewrite (Z.add_comm ((h * 60 + mi - 5) / 1440)). reflexivity.
Qed.

(** The trigger of a time of day: the same day, five minutes earlier,
    or the last minutes of the day before. *)
Lemma trigger_spec_time_of_day (h mi : Z) :
  0 <= h < 24 -> 0 <= mi < 60 ->
  trigger_spec PRAYER_BUFFER_MINUTES (time_of_day h mi)
  = if 5 <=? h * 60 + mi
    then time_of_day ((h * 60 + mi - 5) / 60) ((h * 60 + mi - 5) mod 60)
    else mkdatetime (mkdate 1899 12 31) 23 (55 + mi).
Proof.
  intros Hh Hm.
  unfold trigger_spec, time_of_day, PRAYER_BUFFER_MINUTES.
  cbn [dt_date hour minute].
  change (toordinal (mkdate 1900 1 1)) with 693596.
  destruct (Z.leb_spec 5 (h * 60 + mi)) as [Hge | Hlt].
  - rewrite Z.div_small, Z.mod_small by lia. reflexivity.
  - assert (Hh0 : h = 0) by lia. subst h.
    replace ((0 * 60 + mi - 5) / 1440) with (-1)
      by (Z.to_euclidean_division_equations; lia).
    replace ((0 * 60 + mi - 5) mod 1440) with (1435 + mi)
      by (Z.to_euclidean_division_equations; lia).
    replace ((1435 + mi) / 60) with 23
      by (Z.to_euclidean_division_equations; lia).
    replace ((1435 + mi) mod 60) with (55 + mi)
      by (Z.to_euclidean_division_equations; lia).
    reflexivity.
Qed.

Lemma schedule_loop_times_of_day (items : schedule) :
  Forall (fun e => is_time_of_day (snd e) = true) items ->
  forall out : list line,
    schedule_loop items out
    = (out ++ map line_of_alarm (to_alarms_spec items PRAYER_BUFFER_MINUTES),
       Ok tt).
Proof.
  induction 1 as [| [p t] rest Ht _ IH]; intros out.
  - cbn. rewrite app_nil_r. reflexivity.
  - cbn [schedule_loop]. cbn [snd] in Ht.
    rewrite (sub_minutes_time_of_day t Ht), IH.
    unfold to_alarms_spec. cbn [map fst snd].
    rewrite <- app_assoc. reflexivity.
Qed.

End PrayerFacts.

(** C2. [next_prayer] takes no account of the current time: with Fajr
    at 05:00 and Dhuhr at 12:15 it answers Fajr, which at 10:00 has
    passed, where the entry with the least time after 10:00 is Dhuhr. *)
Theorem next_prayer_ignores_the_current_time :
  let prayers :=
    [("Fajr", time_of_day 5 0); ("Dhuhr", time_of_day 12 15)]%string in
  let now := time_of_day 10 0 in
  next_prayer prayers = Ok "Fajr"%string /\
  prayer_time_label prayers = Ok "Next prayer: Fajr"%string /\
  next_event_spec now prayers = Some ("Dhuhr"%string, time_of_day 12 15).
Proof. repeat split. Qed.

(** C8, as stated, fails: the lead is not an argument.  Where the
    specification's translator with a 10-minute lead gives 04:50 for
    Fajr at 05:00, [schedule_prayer_alarms] schedules 04:55. *)
Lemma lead_of_ten_minutes_is_not_honoured :
  to_alarms_spec [("Fajr", time_of_day 5 0)]%string 10
  = [("Fajr", time_of_day 4 50)]%string /\
  schedule_prayer_alarms (mkworld [("Fajr", time_of_day 5 0)]%string [])
  = (mkworld [("Fajr", time_of_day 5 0)]%string
       [ScheduledAlarm "Fajr" (time_of_day 4 55)], Ok tt) /\
  stdout (fst (schedule_prayer_alarms
                 (mkworld [("Fajr", time_of_day 5 0)]%string [])))
  <> map line_of_alarm (to_alarms_spec [("Fajr", time_of_day 5 0)]%string 10).
Proof. repeat split. discriminate. Qed.

(** C8, amended. For every schedule of times of day,
    [schedule_prayer_alarms] prints, for each entry in turn and so with
    each label once, an alarm at the event time minus the fixed lead
    [PRAYER_BUFFER_MINUTES] = 5 minutes (the function takes no lead);
    an event in the first five minutes of the day gets its alarm on the
    previous calendar day instead of an error; the schedule it was
    handed is unchanged; and {Fajr: 05:00, Dhuhr: 12:15} gives
    {Fajr: 04:55, Dhuhr: 12:10}. *)
Theorem alarms_five_minutes_before_each_prayer
  (s : schedule) (out : list line) :
  Forall (fun e => is_time_of_day (snd e) = true) s ->
  let alarms := to_alarms_spec s PRAYER_BUFFER_MINUTES in
  schedule_prayer_alarms (mkworld s out)
  = (mkworld s (out ++ map line_of_alarm alarms), Ok tt) /\
  map fst alarms = map fst s /\
  map line_prayer (map line_of_alarm alarms) = map fst s /\
  (forall (p : string) (h mi : Z),
      In (p, time_of_day h mi) s ->
      In (p, if (5 <=? h * 60 + mi)%Z
             then time_of_day ((h * 60 + mi - 5) / 60)
                              ((h * 60 + mi - 5) mod 60)
             else mkdatetime (mkdate 1899 12 31) 23 (55 + mi))
         alarms) /\
  schedule_prayer_alarms
    (mkworld [("Fajr", time_of_day 5 0); ("Dhuhr", time_of_day 12 15)]%string
             [])
  = (mkworld [("Fajr", time_of_day 5 0); ("Dhuhr", time_of_day 12 15)]%string
             [ScheduledAlarm "Fajr" (time_of_day 4 55);
              ScheduledAlarm "Dhuhr" (time_of_day 12 10)],
     Ok tt).
Proof.
  intros Hs alarms. split; [| split; [| split; [| split]]].
  - unfold schedule_prayer_alarms. cbn [prayer_times stdout].
    rewrite (schedule_loop_times_of_day s Hs). reflexivity.
  - unfold alarms, to_alarms_spec. rewrite map_map. reflexivity.
  - unfold alarms, to_alarms_spec. rewrite !map_map. reflexivity.
  - intros p h mi Hin.
    assert (Ht : is_time_of_day (time_of_day h mi) = true).
    { rewrite Forall_forall in Hs. exact (Hs _ Hin). }
    destruct (time_of_day_fields _ Ht) as (h' & mi' & Heq & Hh & Hm).
    injection Heq as <- <-.
    rewrite <- (trigger_spec_time_of_day h mi Hh Hm).
    unfold alarms, to_alarms_spec.
    apply (in_map (fun e => (fst e, trigger_spec PRAYER_BUFFER_MINUTES (snd e))))
      in Hin.
    exact Hin.
  - reflexivity.
Qed.

Lemma alarms_five_minutes_before_each_prayer_witness :
  Forall (fun e => is_time_of_day (snd e) = true)
    [("Fajr", time_of_day 0 3); ("Isha", time_of_day 19 30)]%string /\
  schedule_prayer_alarms
    (mkworld [("Fajr", time_of_day 0 3); ("Isha", time_of_day 19 30)]%string
       [])
  = (mkworld [("Fajr", time_of_day 0 3); ("Isha", time_of_day 19 30)]%string
       [ScheduledAlarm "Fajr" (mkdatetime (mkdate 1899 12 31) 23 58);
        ScheduledAlarm "Isha" (time_of_day 19 25)],
     Ok tt).
Proof.
  assert (Hs : Forall (fun e => is_time_of_day (snd e) = true)
                 [("Fajr", time_of_day 0 3); ("Isha", time_of_day 19 30)]%string)
    by (repeat constructor).
  split; [exact Hs |].
  exact (proj1 (alarms_five_minutes_before_each_prayer _ [] Hs)).
Defined.

(** ** The embedding on concrete inputs *)

Example toordinal_1900 : toordinal (mkdate 1900 1 1) = 693596%Z.
Proof. reflexivity. Qed.

Example fromordinal_max : ord2ymd MAXORDINAL = mkdate 9999 12 31.
Proof. reflexivity. Qed.

Example strptime_unpadded :
  strptime_date "2024-1-5" = Ok (mkdate 2024 1 5).
Proof. reflexivity. Qed.

Example strptime_no_such_day : strptime_date "2023-02-29" = Raise ValueError.
Proof. reflexivity. Qed.

Example strptime_trailing_text :
  strptime_date "2024-03-15T10:00" = Raise ValueError.
Proof. reflexivity. Qed.

Example printed_alarm :
  render (ScheduledAlarm "Fajr" (time_of_day 4 55))
  = "Scheduled alarm for Fajr at 1900-01-01 04:55:00"%string.
Proof. reflexivity. Qed.

Example alarm_on_the_previous_day :
  sub_minutes (time_of_day 0 3) PRAYER_BUFFER_MINUTES
  = Ok (mkdatetime (mkdate 1899 12 31) 23 58).
Proof. reflexivity. Qed.

Example alarm_before_the_first_datetime :
  sub_minutes (mkdatetime (mkdate 1 1 1) 0 3) PRAYER_BUFFER_MINUTES
  = Raise OverflowError.
Proof. reflexivity. Qed.

Example record_without_position :
  should_update_cache (mkdate 2024 3 15) 24.7136 46.6753 (JObj [])
  = Raise TypeError.
Proof. reflexivity. Qed.

Example next_prayer_of_nothing : next_prayer [] = Raise ValueError.
Proof. reflexivity. Qed.

(* ================================================================== *)
(** * Part III: further properties of the program *)
(* ================================================================== *)

(** ** Geometry of [haversine] *)

Section GeoMore.
Local Open Scope R_scope.

Lemma haversine_asin (lat1 lon1 lat2 lon2 : R) :
  haversine lat1 lon1 lat2 lon2
  = Ok (12742000 * asin (sqrt (hav_a lat1 lon1 lat2 lon2))).
Proof.
  rewrite haversine_value.
  rewrite (atan2_asin _ (hav_a_range lat1 lon1 lat2 lon2)).
  f_equal. ring.
Qed.


Lemma sin_sqr_abs (x : R) : sin (Rabs x) ^ 2 = sin x ^ 2.
Proof.
  unfold Rabs. destruct (Rcase_abs x); [apply sin_sqr_opp | reflexivity].
Qed.

Lemma asin_sqrt_sin_sqr (h : R) :
  0 <= h <= PI / 2 -> asin (sqrt (sin h ^ 2)) = h.
Proof.
  intros [H0 H1]. pose proof PI_RGT_0.
  rewrite sqrt_pow2 by (apply sin_ge_0; lra).
  apply asin_sin. lra.
Qed.

Lemma radians_abs (x : R) : radians (Rabs x) = Rabs (radians x).
Proof.
  unfold radians. pose proof PI_RGT_0.
  rewrite Rabs_mult, (Rabs_pos_eq (PI / 180)) by lra. reflexivity.
Qed.

(** When [a] is the squared sine of a half angle [h], the distance is
    the arc of angle [2 h]; when [a] is at least that, so is the
    distance. *)
Lemma haversine_half_angle (lat1 lon1 lat2 lon2 h : R) :
  0 <= h <= PI / 2 ->
  hav_a lat1 lon1 lat2 lon2 = sin h ^ 2 ->
  haversine lat1 lon1 lat2 lon2 = Ok (12742000 * h).
Proof.
  intros Hh Ha. rewrite haversine_asin, Ha, asin_sqrt_sin_sqr by exact Hh.
  reflexivity.
Qed.


Lemma half_angle_range (x : R) :
  Rabs x <= 180 -> 0 <= Rabs (radians x) / 2 <= PI / 2.
Proof.
  intros Hx. pose proof PI_RGT_0. pose proof (Rabs_pos (radians x)).
  rewrite <- radians_abs in *. unfold radians in *. split; [lra | nra].
Qed.

Lemma sin_half_abs (x : R) :
  sin (Rabs (radians x) / 2) ^ 2 = sin (radians x / 2) ^ 2.
Proof.
  replace (Rabs (radians x) / 2) with (Rabs (radians x / 2)).
  - apply sin_sqr_abs.
  - unfold Rdiv. rewrite Rabs_mult, (Rabs_pos_eq (/ 2)) by lra. reflexivity.
Qed.

End GeoMore.


Lemma haversine_meridian (lat1 lat2 lon : R) :
  (Rabs (lat2 - lat1) <= 180)%R ->
  haversine lat1 lon lat2 lon
  = Ok (6371000 * radians (Rabs (lat2 - lat1)))%R.
Proof.
  intros Hd.
  rewrite (haversine_half_angle lat1 lon lat2 lon
             (Rabs (radians (lat2 - lat1)) / 2)).
  - f_equal. rewrite radians_abs. field.
  - apply half_angle_range, Hd.
  - rewrite sin_half_abs. unfold hav_a. cbv zeta.
    replace (radians (lon - lon) / 2)%R with 0%R by (unfold radians; field).
    rewrite sin_0. ring.
Qed.

(** X2. Between two points of the same longitude whose latitudes
    differ by at most 180 degrees, the distance is the arc of the
    meridian: 6 371 000 m times the latitude difference in radians. *)
Theorem distance_along_a_meridian (lat1 lat2 lon : R) :
  (Rabs (lat2 - lat1) <= 180)%R ->
  haversine lat1 lon lat2 lon
  = Ok (6371000 * radians (Rabs (lat2 - lat1)))%R.
Proof. exact (haversine_meridian lat1 lat2 lon). Qed.

Lemma distance_along_a_meridian_witness :
  (Rabs (24.9 - 24.7136) <= 180)%R /\
  haversine 24.7136 46.6753 24.9 46.6753
  = Ok (6371000 * radians (Rabs (24.9 - 24.7136)))%R.
Proof.
  assert (H : (Rabs (24.9 - 24.7136) <= 180)%R)
    by (rewrite Rabs_pos_eq; lra).
  split; [exact H |].
  exact (distance_along_a_meridian 24.7136 24.9 46.6753 H).
Defined.






(** X5. Seen from the pole (latitude 90) the longitudes do not matter:
    the distance to a point of valid latitude is the arc of meridian
    down to it. *)
Theorem distance_from_the_pole (lon1 lat2 lon2 : R) :
  (-90 <= lat2 <= 90)%R ->
  haversine 90 lon1 lat2 lon2 = Ok (6371000 * radians (90 - lat2))%R.
Proof.
  intros H2. pose proof PI_RGT_0 as Hpi.
  assert (Hd : (Rabs (lat2 - 90) <= 180)%R) by (apply Rabs_le; lra).
  rewrite (haversine_half_angle 90 lon1 lat2 lon2
             (Rabs (radians (lat2 - 90)) / 2)).
  - f_equal. rewrite <- radians_abs.
    rewrite <- Rabs_Ropp, Rabs_pos_eq by lra.
    replace (- (lat2 - 90))%R with (90 - lat2)%R by ring. field.
  - apply half_angle_range, Hd.
  - rewrite sin_half_abs. unfold hav_a. cbv zeta.
    replace (radians 90) with (PI / 2)%R by (unfold radians; field).
    rewrite cos_PI2. ring.
Qed.

Lemma distance_from_the_pole_witness :
  (-90 <= 21.4858 <= 90)%R /\
  haversine 90 0 21.4858 39.1925 = Ok (6371000 * radians (90 - 21.4858))%R.
Proof.
  assert (H2 : (-90 <= 21.4858 <= 90)%R) by lra.
  split; [exact H2 |].
  exact (distance_from_the_pole 0 21.4858 39.1925 H2).
Defined.

(** ** The freshness policy, further *)

Section PolicyMore.

Lemma date_gt_trans (a b c : date) :
  date_gt a b = true -> date_gt b c = true -> date_gt a c = true.
Proof.
  unfold date_gt.
  rewrite !orb_true_iff, !andb_true_iff, !orb_true_iff, !andb_true_iff,
    !Z.ltb_lt, !Z.eqb_eq.
  lia.
Qed.



Lemma fresh_when_near_aux
  (today : date) (current_lat current_lon : R)
  (c : json) (lat lon : R) (fetched : date) (d : R) :
  record_fields c lat lon fetched ->
  haversine current_lat current_lon lat lon = Ok d ->
  (d <= 20000)%R ->
  should_update_cache today current_lat current_lon c
  = Ok (date_gt today fetched).
Proof.
  intros Hrec Hd Hle.
  destruct (should_update_cache_present today current_lat current_lon
              c lat lon fetched Hrec) as (d' & Hd' & ->).
  rewrite (haversine_inj _ _ _ _ _ _ Hd' Hd).
  destruct (Rlt_dec 20000 d); [lra | reflexivity].
Qed.

End PolicyMore.



(** X7. On the meridian of the record, a move of at most 0.1798
    degrees of latitude is less than 20 km: the answer is then the
    comparison of the dates alone, [False] on the day of the fetch. *)
Theorem small_move_on_the_meridian_leaves_the_dates_to_decide
  (today : date) (current_lat : R)
  (c : json) (lat lon : R) (fetched : date) :
  record_fields c lat lon fetched ->
  (Rabs (lat - current_lat) <= 0.1798)%R ->
  should_update_cache today current_lat lon c = Ok (date_gt today fetched) /\
  should_update_cache fetched current_lat lon c = Ok false.
Proof.
  intros Hrec Hmove.
  assert (Hd : (Rabs (lat - current_lat) <= 180)%R) by lra.
  pose proof (haversine_meridian current_lat lat lon Hd) as Hdist.
  assert (Hle : (6371000 * radians (Rabs (lat - current_lat)) <= 20000)%R).
  { pose proof PI_bounds as [_ Hp].
    pose proof (Rabs_pos (lat - current_lat)). unfold radians. nra. }
  split.
  - exact (fresh_when_near_aux today _ _ _ _ _ _ _ Hrec Hdist Hle).
  - rewrite (fresh_when_near_aux fetched _ _ _ _ _ _ _ Hrec Hdist Hle).
    rewrite date_gt_irrefl. reflexivity.
Qed.

Lemma small_move_on_the_meridian_leaves_the_dates_to_decide_witness :
  record_fields (cache_data (mkdate 2024 3 15) (JArr []) 24.8 46.6753)
    24.8 46.6753 (mkdate 2024 3 15) /\
  (Rabs (24.8 - 24.7136) <= 0.1798)%R /\
  should_update_cache (mkdate 2024 3 15) 24.7136 46.6753
    (cache_data (mkdate 2024 3 15) (JArr []) 24.8 46.6753)
  = Ok false.
Proof.
  assert (Hrec : record_fields
                   (cache_data (mkdate 2024 3 15) (JArr []) 24.8 46.6753)
                   24.8 46.6753 (mkdate 2024 3 15))
    by (apply saved_record_fields; reflexivity).
  assert (H : (Rabs (24.8 - 24.7136) <= 0.1798)%R)
    by (rewrite Rabs_pos_eq; lra).
  repeat (split; [assumption |]).
  exact (proj2 (small_move_on_the_meridian_leaves_the_dates_to_decide
                  (mkdate 2024 3 15) 24.7136 _ _ _ _ Hrec H)).
Defined.

(** X8. What is not a dict is rejected with [AttributeError], and a
    dict that lacks one of the two position fields with [TypeError],
    before any distance is computed and whatever its date field. *)
Theorem records_without_a_position_are_rejected
  (today : date) (current_lat current_lon : R) :
  (forall c : json,
      (forall members, c <> JObj members) ->
      should_update_cache today current_lat current_lon c
      = Raise AttributeError) /\
  (forall (members : list (string * json)) (v : R),
      (assoc "last_lat" members = None \/
       assoc "last_lat" members = Some (JNum v)
       /\ assoc "last_lon" members = None) ->
      should_update_cache today current_lat current_lon (JObj members)
      = Raise TypeError).
Proof.
  split.
  - intros c Hc. destruct c; try reflexivity.
    exfalso. exact (Hc _ eq_refl).
  - intros members v [H | [H1 H2]]; unfold should_update_cache, get.
    + rewrite H. cbn [bind].
      destruct (assoc "last_lon" members), (assoc "last_update" members);
        reflexivity.
    + rewrite H1, H2. cbn [bind].
      destruct (assoc "last_update" members); reflexivity.
Qed.

Lemma records_without_a_position_are_rejected_witness :
  (forall members, JArr [] <> JObj members) /\
  should_update_cache (mkdate 2024 3 15) 24.7136 46.6753 (JArr [])
  = Raise AttributeError /\
  should_update_cache (mkdate 2024 3 15) 24.7136 46.6753
    (JObj [("last_lat", JNum 24.7136)]%string)
  = Raise TypeError.
Proof.
  assert (H : forall members, JArr [] <> JObj members)
    by (intros members; discriminate).
  split; [exact H | split].
  - exact (proj1 (records_without_a_position_are_rejected
                    (mkdate 2024 3 15) 24.7136 46.6753) (JArr []) H).
  - exact (proj2 (records_without_a_position_are_rejected
                    (mkdate 2024 3 15) 24.7136 46.6753)
             [("last_lat", JNum 24.7136)]%string 24.7136%R
             (or_intror (conj eq_refl eq_refl))).
Defined.

(** X9. The date field is read only when the move is within 20 km: a
    record whose date field is missing or is not the text of a date
    still answers [True] beyond 20 km, and raises within. *)
Theorem unreadable_date_matters_only_when_near
  (today : date) (current_lat current_lon : R)
  (c v1 v2 u : json) (lat lon d : R) (e : exn) :
  get c "last_lat" = Ok v1 -> as_float v1 = Ok lat ->
  get c "last_lon" = Ok v2 -> as_float v2 = Ok lon ->
  get c "last_update" = Ok u ->
  bind (as_str u) strptime_date = Raise e ->
  haversine current_lat current_lon lat lon = Ok d ->
  should_update_cache today current_lat current_lon c
  = if Rlt_dec 20000 d then Ok true else Raise e.
Proof.
  intros H1 F1 H2 F2 H3 Hbad Hd. unfold should_update_cache.
  rewrite H1, H2, H3. cbn [bind]. rewrite F1, F2. cbn [bind].
  rewrite Hd. cbn [bind].
  change (IZR UPDATE_DISTANCE) with 20000%R.
  destruct (Rlt_dec 20000 d); [reflexivity |].
  destruct (as_str u) as [s |]; cbn [bind] in *.
  - rewrite Hbad. reflexivity.
  - injection Hbad as ->. reflexivity.
Qed.

Lemma unreadable_date_matters_only_when_near_witness :
  should_update_cache (mkdate 2024 3 15) 24.7136 46.6753
    (JObj [("last_lat", JNum 24.7136); ("last_lon", JNum 46.6753);
           ("last_update", JStr "yesterday")]%string)
  = Raise ValueError.
Proof.
  rewrite (unreadable_date_matters_only_when_near (mkdate 2024 3 15)
             24.7136 46.6753
             (JObj [("last_lat", JNum 24.7136); ("last_lon", JNum 46.6753);
                    ("last_update", JStr "yesterday")]%string)
             (JNum 24.7136) (JNum 46.6753)
             (JStr "yesterday") 24.7136 46.6753 0 ValueError
             eq_refl eq_refl eq_refl eq_refl eq_refl eq_refl
             (haversine_refl 24.7136 46.6753)).
  destruct (Rlt_dec 20000 0); [lra | reflexivity].
Defined.

(** X10. Saving, loading and asking the policy at the saved position:
    the answer is exactly whether the clock shows a later date than
    the day of the save, so [False] on that day (or before it) and
    [True] from the next day on. *)
Theorem saved_cache_is_fresh_until_the_next_day
  (today later : date) (mosques : json) (lat lon : R) (fs : filesystem) :
  valid_date today = true ->
  bind (load_cached_mosque_data (cache_mosque_data today mosques lat lon fs))
       (should_update_cache later lat lon)
  = Ok (date_gt later today).
Proof.
  intros Hv.
  assert (Hload : load_cached_mosque_data
                    (cache_mosque_data today mosques lat lon fs)
                  = Ok (cache_data today mosques lat lon)).
  { unfold load_cached_mosque_data, cache_mosque_data, write_file.
    cbv beta. rewrite String.eqb_refl. reflexivity. }
  rewrite Hload. cbn [bind].
  apply (fresh_when_near_aux later lat lon _ lat lon today 0).
  - apply saved_record_fields, Hv.
  - apply haversine_refl.
  - lra.
Qed.

Lemma saved_cache_is_fresh_until_the_next_day_witness :
  valid_date (mkdate 2024 12 31) = true /\
  bind (load_cached_mosque_data
          (cache_mosque_data (mkdate 2024 12 31) (JArr []) 24.7136 46.6753
             no_files))
       (should_update_cache (mkdate 2025 1 1) 24.7136 46.6753)
  = Ok true.
Proof.
  split; [reflexivity |].
  exact (saved_cache_is_fresh_until_the_next_day (mkdate 2024 12 31)
           (mkdate 2025 1 1) (JArr []) 24.7136 46.6753 no_files eq_refl).
Defined.

(** X11. Staleness lasts: whatever the record, once
    [should_update_cache] has answered [True] it answers [True] at the
    same position on every later date. *)
Theorem stale_record_stays_stale
  (today later : date) (current_lat current_lon : R) (c : json) :
  should_update_cache today current_lat current_lon c = Ok true ->
  date_gt later today = true ->
  should_update_cache later current_lat current_lon c = Ok true.
Proof.
  unfold should_update_cache. intros H Hlater.
  destruct (get c "last_lat") as [v1 |]; cbn [bind] in *; [| discriminate].
  destruct (get c "last_lon") as [v2 |]; cbn [bind] in *; [| discriminate].
  destruct (get c "last_update") as [u |]; cbn [bind] in *; [| discriminate].
  destruct (as_float v1) as [lat |]; cbn [bind] in *; [| discriminate].
  destruct (as_float v2) as [lon |]; cbn [bind] in *; [| discriminate].
  destruct (haversine current_lat current_lon lat lon) as [d |];
    cbn [bind] in *; [| discriminate].
  destruct (Rlt_dec (IZR UPDATE_DISTANCE) d); [reflexivity |].
  destruct (as_str u) as [s |]; cbn [bind] in *; [| discriminate].
  destruct (strptime_date s) as [fetched |]; cbn [bind] in *; [| discriminate].
  destruct (date_gt today fetched) eqn:Hgt; [| discriminate].
  rewrite (date_gt_trans later today fetched Hlater Hgt). reflexivity.
Qed.

Lemma stale_record_stays_stale_witness :
  should_update_cache (mkdate 2024 3 16) 24.7136 46.6753
    (cache_data (mkdate 2024 3 15) (JArr []) 24.7136 46.6753) = Ok true /\
  date_gt (mkdate 2025 1 1) (mkdate 2024 3 16) = true /\
  should_update_cache (mkdate 2025 1 1) 24.7136 46.6753
    (cache_data (mkdate 2024 3 15) (JArr []) 24.7136 46.6753) = Ok true.
Proof.
  assert (H : should_update_cache (mkdate 2024 3 16) 24.7136 46.6753
                (cache_data (mkdate 2024 3 15) (JArr []) 24.7136 46.6753)
              = Ok true).
  { rewrite (fresh_when_near_aux (mkdate 2024 3 16) 24.7136 46.6753 _
               24.7136 46.6753 (mkdate 2024 3 15) 0).
    - reflexivity.
    - apply saved_record_fields. reflexivity.
    - apply haversine_refl.
    - lra. }
  split; [exact H | split; [reflexivity |]].
  exact (stale_record_stays_stale (mkdate 2024 3 16) (mkdate 2025 1 1)
           24.7136 46.6753 _ H eq_refl).
Defined.


(** ** The fetchers *)

Section FetchFacts.
Local Open Scope Z_scope.

Ltac few_cases x :=
  destruct x as [| p | p]; try lia;
  repeat (destruct p as [p | p |]; try lia).

Lemma in_range_bounds (lo hi : Z) (c : ascii) (v : Z) :
  in_range lo hi c = Some v -> lo <= v <= hi.
Proof.
  unfold in_range. destruct (digit_of c) as [d |]; [| discriminate].
  destruct ((lo <=? d) && (d <=? hi)) eqn:Hb; [| discriminate].
  intros [= <-]. apply andb_true_iff in Hb. lia.
Qed.

Lemma some_pair_fst (x h : Z) (r rest : list ascii) :
  Some (x, r) = Some (h, rest) -> x = h.
Proof. congruence. Qed.

Lemma parse_digit_bounds (s rest : list ascii) (v : Z) :
  parse_digit s = Some (v, rest) -> 0 <= v <= 9.
Proof.
  destruct s as [| c s']; [discriminate |]. cbn [parse_digit].
  destruct (in_range 0 9 c) as [d |] eqn:Hd; [| discriminate].
  intros [= <- _]. exact (in_range_bounds _ _ _ _ Hd).
Qed.

Lemma parse_H_bounds (s rest : list ascii) (h : Z) :
  parse_H s = Some (h, rest) -> 0 <= h < 24.
Proof.
  destruct s as [| c1 [| c2 s']].
  - discriminate.
  - cbn [parse_H]. intros H. apply parse_digit_bounds in H. lia.
  - cbn [parse_H].
    destruct (in_range 2 2 c1) as [a |] eqn:Ha;
      destruct (in_range 0 3 c2) as [b |] eqn:Hb;
      try (apply in_range_bounds in Ha); try (apply in_range_bounds in Hb);
      try (intros H; apply some_pair_fst in H; lia);
      destruct (in_range 0 1 c1) as [a' |] eqn:Ha';
      destruct (in_range 0 9 c2) as [b' |] eqn:Hb';
      try (apply in_range_bounds in Ha'); try (apply in_range_bounds in Hb');
      try (intros H; apply some_pair_fst in H; lia);
      intros H; apply parse_digit_bounds in H; lia.
Qed.

Lemma parse_M_bounds (s rest : list ascii) (m : Z) :
  parse_M s = Some (m, rest) -> 0 <= m < 60.
Proof.
  destruct s as [| c1 [| c2 s']].
  - discriminate.
  - cbn [parse_M]. intros H. apply parse_digit_bounds in H. lia.
  - cbn [parse_M].
    destruct (in_range 0 5 c1) as [a |] eqn:Ha;
      destruct (in_range 0 9 c2) as [b |] eqn:Hb;
      try (apply in_range_bounds in Ha); try (apply in_range_bounds in Hb);
      try (intros H; apply some_pair_fst in H; lia);
      intros H; apply parse_digit_bounds in H; lia.
Qed.

Lemma time_of_day_valid (h m : Z) :
  0 <= h < 24 -> 0 <= m < 60 -> is_time_of_day (time_of_day h m) = true.
Proof.
  intros Hh Hm. unfold is_time_of_day, time_of_day.
  cbn [dt_date year month day hour minute].
  rewrite !andb_true_iff, !Z.eqb_eq, !Z.leb_le, !Z.ltb_lt. lia.
Qed.

Lemma strptime_hm_time_of_day (s : string) (t : datetime) :
  strptime_hm s = Ok t -> is_time_of_day t = true.
Proof.
  unfold strptime_hm.
  destruct (parse_H (list_ascii_of_string s)) as [[h s1] |] eqn:HH;
    [| discriminate].
  destruct (expect_colon s1) as [s2 |]; [| discriminate].
  destruct (parse_M s2) as [[m [| c r]] |] eqn:HM; try discriminate.
  intros [= <-]. apply time_of_day_valid.
  - exact (parse_H_bounds _ _ _ HH).
  - exact (parse_M_bounds _ _ _ HM).
Qed.

Lemma parse_H_fmt (h : Z) (rest : list ascii) :
  0 <= h < 24 ->
  parse_H (fmt_02d h ++ colon :: rest) = Some (h, colon :: rest).
Proof. intros H. few_cases h; reflexivity. Qed.

Lemma parse_M_fmt (m : Z) :
  0 <= m < 60 -> parse_M (fmt_02d m) = Some (m, []).
Proof. intros H. few_cases m; reflexivity. Qed.

Lemma assoc_first {V : Type} (l : list (string * V)) (k : string) (v : V) :
  NoDup (map fst l) -> In (k, v) l -> assoc k l = Some v.
Proof.
  induction l as [| [k' v'] rest IH]; intros Hnd Hin; [destruct Hin |].
  cbn [map fst] in Hnd. inversion Hnd as [| ? ? Hnotin Hnd']; subst.
  cbn [assoc]. destruct Hin as [Heq | Hin].
  - injection Heq as -> ->. rewrite String.eqb_refl. reflexivity.
  - destruct (String.eqb_spec k k') as [-> | Hne].
    + exfalso. apply Hnotin. apply (in_map fst) in Hin. exact Hin.
    + apply IH; assumption.
Qed.

(** What the comprehension yields, key by key. *)
Lemma parse_timings_sound (timings : list (string * json)) :
  forall (keys : list string) (s : schedule),
    parse_timings keys timings = Ok s ->
    map fst s = keys /\
    Forall (fun e => is_time_of_day (snd e) = true) s /\
    Forall (fun e => exists text : string,
                assoc (fst e) timings = Some (JStr text) /\
                strptime_hm text = Ok (snd e)) s.
Proof.
  induction keys as [| k keys IH]; intros s H.
  - injection H as <-. repeat split; constructor.
  - cbn [parse_timings subscript] in H.
    destruct (assoc k timings) as [v |] eqn:Hk; cbn [bind] in H;
      [| discriminate].
    destruct v; cbn [as_str bind] in H; try discriminate.
    destruct (strptime_hm s0) as [t |] eqn:Ht; cbn [bind] in H;
      [| discriminate].
    destruct (parse_timings keys timings) as [others |]; cbn [bind] in H;
      [| discriminate].
    injection H as <-. destruct (IH others eq_refl) as (IH1 & IH2 & IH3).
    repeat split.
    + cbn [map fst]. rewrite IH1. reflexivity.
    + constructor; [exact (strptime_hm_time_of_day _ _ Ht) | exact IH2].
    + constructor; [| exact IH3]. exists s0. split; assumption.
Qed.

(** One bad value fails the whole comprehension. *)
Lemma parse_timings_fails (timings : list (string * json)) (k : string) :
  (forall text : string,
      assoc k timings = Some (JStr text) -> exists e, strptime_hm text = Raise e) ->
  forall keys : list string,
    In k keys -> exists e, parse_timings keys timings = Raise e.
Proof.
  intros Hbad. induction keys as [| k' keys IH]; intros Hin; [destruct Hin |].
  cbn [parse_timings subscript].
  destruct Hin as [-> | Hin].
  - destruct (assoc k timings) as [v |] eqn:Hk; cbn [bind];
      [| eexists; reflexivity].
    destruct v; cbn [as_str bind]; try (eexists; reflexivity).
    destruct (Hbad s eq_refl) as [e He]. rewrite He. eexists. reflexivity.
  - destruct (assoc k' timings) as [v |]; cbn [bind];
      [| eexists; reflexivity].
    destruct (as_str v) as [s |]; cbn [bind]; [| eexists; reflexivity].
    destruct (strptime_hm s) as [t |]; cbn [bind]; [| eexists; reflexivity].
    destruct (IH Hin) as [e He]. rewrite He. eexists. reflexivity.
Qed.

End FetchFacts.

(** X13. Whatever [fetch_prayer_times] returns keeps the labels of the
    service's timings in their order, and each of its times is the
    time of day read from the text under that label: an hour below 24
    and a minute below 60, on 1900-01-01. *)
Theorem fetched_prayer_times_are_times_of_day
  (timings : list (string * json)) (s : schedule) :
  fetch_prayer_times timings = Ok s ->
  map fst s = map fst timings /\
  Forall (fun e => is_time_of_day (snd e) = true) s /\
  Forall (fun e => exists text : string,
              assoc (fst e) timings = Some (JStr text) /\
              strptime_hm text = Ok (snd e)) s.
Proof. apply parse_timings_sound. Qed.

Lemma fetched_prayer_times_are_times_of_day_witness :
  fetch_prayer_times
    [("Fajr", JStr "05:12"); ("Dhuhr", JStr "12:5")]%string
  = Ok [("Fajr", time_of_day 5 12); ("Dhuhr", time_of_day 12 5)]%string /\
  Forall (fun e => is_time_of_day (snd e) = true)
    [("Fajr", time_of_day 5 12); ("Dhuhr", time_of_day 12 5)]%string.
Proof.
  split; [reflexivity |].
  exact (proj1 (proj2 (fetched_prayer_times_are_times_of_day
                         [("Fajr", JStr "05:12"); ("Dhuhr", JStr "12:5")]%string
                         _ eq_refl))).
Defined.

(** X14. One timing that is not the text of a time (a number, a null,
    "24:00", "05:12 (EET)") makes [fetch_prayer_times] raise: no
    partial schedule is returned. *)
Theorem one_bad_timing_fails_the_fetch
  (timings : list (string * json)) (k : string) (v : json) :
  NoDup (map fst timings) ->
  In (k, v) timings ->
  (forall text : string, v = JStr text -> exists e, strptime_hm text = Raise e) ->
  exists e : exn, fetch_prayer_times timings = Raise e.
Proof.
  intros Hnd Hin Hbad. unfold fetch_prayer_times.
  apply (parse_timings_fails timings k).
  - intros text Hk. apply Hbad.
    rewrite (assoc_first timings k v Hnd Hin) in Hk.
    injection Hk as ->. reflexivity.
  - apply (in_map fst) in Hin. exact Hin.
Qed.

Lemma one_bad_timing_fails_the_fetch_witness :
  exists e : exn,
    fetch_prayer_times
      [("Fajr", JStr "05:12"); ("Dhuhr", JStr "12:15 (EET)")]%string
    = Raise e.
Proof.
  apply (one_bad_timing_fails_the_fetch
           [("Fajr", JStr "05:12"); ("Dhuhr", JStr "12:15 (EET)")]%string
           "Dhuhr"%string (JStr "12:15 (EET)")).
  - repeat constructor; cbn; intuition discriminate.
  - right. left. reflexivity.
  - intros text [= <-]. exists ValueError. reflexivity.
Defined.

Lemma strptime_hm_padded (h m : Z) :
  (0 <= h < 24)%Z -> (0 <= m < 60)%Z ->
  strptime_hm (string_of_list_ascii (fmt_02d h ++ colon :: fmt_02d m))
  = Ok (time_of_day h m).
Proof.
  intros Hh Hm. unfold strptime_hm.
  rewrite list_ascii_of_string_of_list_ascii.
  rewrite parse_H_fmt by exact Hh.
  cbn [expect_colon]. rewrite Ascii.eqb_refl.
  rewrite parse_M_fmt by exact Hm. reflexivity.
Qed.

Lemma parse_timings_complete (timings : list (string * json)) :
  NoDup (map fst timings) ->
  forall (part : list (string * json)) (s : schedule),
    Forall2 (fun x r =>
               fst r = fst x /\
               exists h m : Z,
                 (0 <= h < 24)%Z /\ (0 <= m < 60)%Z /\
                 snd x = JStr (string_of_list_ascii
                                 (fmt_02d h ++ colon :: fmt_02d m)) /\
                 snd r = time_of_day h m) part s ->
    incl part timings ->
    parse_timings (map fst part) timings = Ok s.
Proof.
  intros Hnd. induction 1 as [| [k v] [k' t] part s Hhead _ IH]; intros Hincl.
  - reflexivity.
  - cbn [fst snd] in Hhead.
    destruct Hhead as (-> & h & m & Hh & Hm & -> & ->).
    cbn [map fst parse_timings subscript].
    rewrite (assoc_first timings k _ Hnd (Hincl _ (or_introl eq_refl))).
    cbn [bind as_str]. rewrite (strptime_hm_padded h m Hh Hm). cbn [bind].
    rewrite IH by (intros x Hx; apply Hincl; right; exact Hx).
    reflexivity.
Qed.

(** X15. [fetch_prayer_times] succeeds on every well-formed answer:
    when the labels are distinct and every timing is the zero-padded
    text HH:MM of an hour below 24 and a minute below 60, it returns
    those labels with those hours and minutes. *)
Theorem well_formed_timings_are_all_fetched
  (timings : list (string * json)) (s : schedule) :
  NoDup (map fst timings) ->
  Forall2 (fun x r =>
             fst r = fst x /\
             exists h m : Z,
               (0 <= h < 24)%Z /\ (0 <= m < 60)%Z /\
               snd x = JStr (string_of_list_ascii
                               (fmt_02d h ++ colon :: fmt_02d m)) /\
               snd r = time_of_day h m) timings s ->
  fetch_prayer_times timings = Ok s.
Proof.
  intros Hnd Hall. unfold fetch_prayer_times.
  apply (parse_timings_complete timings Hnd timings s Hall).
  intros x Hx. exact Hx.
Qed.

Lemma well_formed_timings_are_all_fetched_witness :
  NoDup (map fst [("Fajr", JStr "05:12"); ("Isha", JStr "23:59")]%string) /\
  fetch_prayer_times [("Fajr", JStr "05:12"); ("Isha", JStr "23:59")]%string
  = Ok [("Fajr", time_of_day 5 12); ("Isha", time_of_day 23 59)]%string.
Proof.
  assert (Hnd : NoDup (map fst [("Fajr", JStr "05:12");
                                ("Isha", JStr "23:59")]%string))
    by (repeat constructor; cbn; intuition discriminate).
  split; [exact Hnd |].
  apply (well_formed_timings_are_all_fetched _ _ Hnd).
  repeat constructor; cbn [fst snd].
  - exists 5%Z, 12%Z. repeat split; try lia; reflexivity.
  - exists 23%Z, 59%Z. repeat split; try lia; reflexivity.
Defined.

(** ** The next prayer, further *)

Section NextPrayerFacts.
Local Open Scope Z_scope.

(** [datetime_lt] is a strict total order on the five fields. *)
Lemma datetime_lt_chain (a b c : datetime) :
  datetime_lt a b = true -> datetime_lt c b = false -> datetime_lt a c = true.
Proof.
  unfold datetime_lt, date_gt.
  destruct a as [[ya ma da] ha ia], b as [[yb mb db] hb ib],
    c as [[yc mc dc] hc ic].
  cbn [dt_date year month day hour minute].
  rewrite <- !not_true_iff_false.
  rewrite !orb_true_iff, !andb_true_iff, !negb_true_iff.
  rewrite <- !not_true_iff_false.
  rewrite !orb_true_iff, !andb_true_iff, !orb_true_iff, !andb_true_iff,
    !Z.ltb_lt, !Z.eqb_eq.
  lia.
Qed.

Lemma datetime_lt_trans (a b c : datetime) :
  datetime_lt a b = true -> datetime_lt b c = true -> datetime_lt a c = true.
Proof.
  unfold datetime_lt, date_gt.
  destruct a as [[ya ma da] ha ia], b as [[yb mb db] hb ib],
    c as [[yc mc dc] hc ic].
  cbn [dt_date year month day hour minute].
  rewrite !orb_true_iff, !andb_true_iff, !negb_true_iff.
  rewrite <- !not_true_iff_false.
  rewrite !orb_true_iff, !andb_true_iff, !orb_true_iff, !andb_true_iff,
    !Z.ltb_lt, !Z.eqb_eq.
  lia.
Qed.

(** Where [min] stops: everything before the chosen entry is strictly
    later than it, and nothing after it is earlier. *)
Lemma earliest_split (rest : schedule) :
  forall best : string * datetime,
  exists pre post : schedule,
    best :: rest = pre ++ earliest best rest :: post /\
    Forall (fun x => datetime_lt (snd (earliest best rest)) (snd x) = true)
      pre /\
    Forall (fun x => datetime_lt (snd x) (snd (earliest best rest)) = false)
      post.
Proof.
  induction rest as [| e rest' IH]; intros best.
  - exists [], []. repeat split; constructor.
  - cbn [earliest]. destruct (datetime_lt (snd e) (snd best)) eqn:Hlt.
    + destruct (IH e) as (pre & post & Heq & Hpre & Hpost).
      exists (best :: pre), post. split; [| split].
      * cbn [app]. rewrite <- Heq. reflexivity.
      * constructor; [| exact Hpre].
        destruct pre as [| x pre'].
        -- cbn [app] in Heq. injection Heq as He _. rewrite <- He. exact Hlt.
        -- cbn [app] in Heq. injection Heq as He _. subst x.
           apply (datetime_lt_trans _ (snd e)); [| exact Hlt].
           inversion Hpre; assumption.
      * exact Hpost.
    + destruct (IH best) as (pre & post & Heq & Hpre & Hpost).
      destruct pre as [| x pre'].
      * cbn [app] in Heq. injection Heq as Hb Hr.
        exists [], (e :: post). split; [| split].
        -- cbn [app]. rewrite <- Hb, <- Hr. reflexivity.
        -- constructor.
        -- constructor; [rewrite <- Hb; exact Hlt | exact Hpost].
      * cbn [app] in Heq. injection Heq as Hb Hr. subst x.
        exists (best :: e :: pre'), post. split; [| split].
        -- cbn [app]. do 2 f_equal. exact Hr.
        -- inversion Hpre as [| ? ? Hbest Hpre']; subst.
           constructor; [exact Hbest |].
           constructor; [| exact Hpre'].
           exact (datetime_lt_chain _ _ _ Hbest Hlt).
        -- exact Hpost.
Qed.

Lemma earliest_in (rest : schedule) :
  forall best : string * datetime, In (earliest best rest) (best :: rest).
Proof.
  intros best. destruct (earliest_split rest best) as (pre & post & Heq & _).
  rewrite Heq. apply in_or_app. right. left. reflexivity.
Qed.

End NextPrayerFacts.

(** X16. On a schedule with distinct labels [next_prayer] never fails
    unless the schedule is empty, and then it is a [ValueError]; it
    returns the label of the first entry of least time: every entry
    before it is strictly later, no entry after it is earlier. *)
Theorem next_prayer_is_the_first_earliest_entry (s : schedule) :
  NoDup (map fst s) ->
  (s = [] /\ next_prayer s = Raise ValueError) \/
  (exists (pre post : schedule) (p : string) (t : datetime),
      s = pre ++ (p, t) :: post /\
      next_prayer s = Ok p /\
      Forall (fun x => datetime_lt t (snd x) = true) pre /\
      Forall (fun x => datetime_lt (snd x) t = false) post).
Proof.
  intros Hnd. destruct s as [| e rest]; [left; split; reflexivity | right].
  destruct (earliest_split rest e) as (pre & post & Heq & Hpre & Hpost).
  exists pre, post, (fst (earliest e rest)), (snd (earliest e rest)).
  rewrite <- surjective_pairing. repeat split; try assumption.
  apply next_prayer_earliest, Hnd.
Qed.

Lemma next_prayer_is_the_first_earliest_entry_witness :
  NoDup (map fst [("Sunset", time_of_day 18 2); ("Imsak", time_of_day 4 50);
                  ("Fajr", time_of_day 5 0); ("Lastthird", time_of_day 4 50)
                 ]%string) /\
  next_prayer [("Sunset", time_of_day 18 2); ("Imsak", time_of_day 4 50);
               ("Fajr", time_of_day 5 0); ("Lastthird", time_of_day 4 50)
              ]%string
  = Ok "Imsak"%string.
Proof.
  assert (Hnd : NoDup (map fst
                  [("Sunset", time_of_day 18 2); ("Imsak", time_of_day 4 50);
                   ("Fajr", time_of_day 5 0); ("Lastthird", time_of_day 4 50)
                  ]%string))
    by (repeat constructor; cbn; intuition discriminate).
  split; [exact Hnd |].
  destruct (next_prayer_is_the_first_earliest_entry _ Hnd)
    as [[Hnil _] | (pre & post & p & t & _ & Hp & _)].
  - discriminate Hnil.
  - reflexivity.
Defined.

(** ** The alarms, further *)

Section AlarmFacts.
Local Open Scope Z_scope.

Lemma schedule_loop_app (pre rest : schedule) :
  Forall (fun e => is_time_of_day (snd e) = true) pre ->
  forall out : list line,
    schedule_loop (pre ++ rest) out
    = schedule_loop rest
        (out ++ map line_of_alarm (to_alarms_spec pre PRAYER_BUFFER_MINUTES)).
Proof.
  induction 1 as [| [p t] pre' Ht _ IH]; intros out.
  - cbn. rewrite app_nil_r. reflexivity.
  - cbn [app schedule_loop]. cbn [snd] in Ht.
    rewrite (sub_minutes_time_of_day t Ht), IH.
    unfold to_alarms_spec. cbn [map fst snd].
    rewrite <- app_assoc. reflexivity.
Qed.

Lemma alarm_order (h1 m1 h2 m2 : Z) :
  0 <= h1 < 24 -> 0 <= m1 < 60 -> 0 <= h2 < 24 -> 0 <= m2 < 60 ->
  datetime_lt (trigger_spec PRAYER_BUFFER_MINUTES (time_of_day h1 m1))
              (time_of_day h1 m1) = true /\
  (datetime_lt (time_of_day h1 m1) (time_of_day h2 m2) = true ->
   datetime_lt (trigger_spec PRAYER_BUFFER_MINUTES (time_of_day h1 m1))
               (trigger_spec PRAYER_BUFFER_MINUTES (time_of_day h2 m2))
   = true).
Proof.
  intros Hh1 Hm1 Hh2 Hm2.
  rewrite !trigger_spec_time_of_day by assumption.
  destruct (Z.leb_spec 5 (h1 * 60 + m1)) as [H1 | H1];
    destruct (Z.leb_spec 5 (h2 * 60 + m2)) as [H2 | H2];
    unfold datetime_lt, date_gt, time_of_day;
    cbn [dt_date year month day hour minute];
    rewrite ?orb_true_iff, ?andb_true_iff, ?negb_true_iff;
    rewrite <- ?not_true_iff_false;
    rewrite ?orb_true_iff, ?andb_true_iff, ?orb_true_iff, ?andb_true_iff,
      ?Z.ltb_lt, ?Z.eqb_eq;
    (split; [| intros Hlt]);
    Z.to_euclidean_division_equations; lia.
Qed.

End AlarmFacts.

(** X17. [schedule_prayer_alarms] stops at the first entry whose alarm
    time cannot be formed: the alarms of the entries before it have
    been printed, none of the later ones is, the error is raised and
    the schedule is as it was. *)
Theorem alarms_stop_at_the_first_failure
  (pre post : schedule) (p : string) (t : datetime) (e : exn)
  (out : list line) :
  Forall (fun x => is_time_of_day (snd x) = true) pre ->
  sub_minutes t PRAYER_BUFFER_MINUTES = Raise e ->
  schedule_prayer_alarms (mkworld (pre ++ (p, t) :: post) out)
  = (mkworld (pre ++ (p, t) :: post)
       (out ++ map line_of_alarm (to_alarms_spec pre PRAYER_BUFFER_MINUTES)),
     Raise e).
Proof.
  intros Hpre Ht. unfold schedule_prayer_alarms. cbn [prayer_times stdout].
  rewrite (schedule_loop_app pre _ Hpre). cbn [schedule_loop].
  rewrite Ht. reflexivity.
Qed.

Lemma alarms_stop_at_the_first_failure_witness :
  Forall (fun x => is_time_of_day (snd x) = true)
    [("Fajr", time_of_day 5 0)]%string /\
  sub_minutes (mkdatetime (mkdate 1 1 1) 0 3) PRAYER_BUFFER_MINUTES
  = Raise OverflowError /\
  schedule_prayer_alarms
    (mkworld [("Fajr", time_of_day 5 0);
              ("Dhuhr", mkdatetime (mkdate 1 1 1) 0 3);
              ("Asr", time_of_day 15 30)]%string [])
  = (mkworld [("Fajr", time_of_day 5 0);
              ("Dhuhr", mkdatetime (mkdate 1 1 1) 0 3);
              ("Asr", time_of_day 15 30)]%string
       [ScheduledAlarm "Fajr" (time_of_day 4 55)],
     Raise OverflowError).
Proof.
  assert (Hpre : Forall (fun x => is_time_of_day (snd x) = true)
                   [("Fajr", time_of_day 5 0)]%string)
    by (repeat constructor).
  split; [exact Hpre | split; [reflexivity |]].
  exact (alarms_stop_at_the_first_failure [("Fajr", time_of_day 5 0)]%string
           [("Asr", time_of_day 15 30)]%string "Dhuhr"%string
           (mkdatetime (mkdate 1 1 1) 0 3) OverflowError [] Hpre eq_refl).
Defined.

(** X18. For times of day, the alarm comes strictly before its prayer,
    and alarms keep the order of the prayers: an earlier prayer has
    the earlier alarm, across midnight too. *)
Theorem alarms_precede_and_keep_the_order (t1 t2 : datetime) :
  is_time_of_day t1 = true -> is_time_of_day t2 = true ->
  exists a1 a2 : datetime,
    sub_minutes t1 PRAYER_BUFFER_MINUTES = Ok a1 /\
    sub_minutes t2 PRAYER_BUFFER_MINUTES = Ok a2 /\
    datetime_lt a1 t1 = true /\
    (datetime_lt t1 t2 = true -> datetime_lt a1 a2 = true).
Proof.
  intros H1 H2.
  exists (trigger_spec PRAYER_BUFFER_MINUTES t1),
    (trigger_spec PRAYER_BUFFER_MINUTES t2).
  split; [apply sub_minutes_time_of_day, H1 |].
  split; [apply sub_minutes_time_of_day, H2 |].
  destruct (time_of_day_fields t1 H1) as (h1 & m1 & -> & Hh1 & Hm1).
  destruct (time_of_day_fields t2 H2) as (h2 & m2 & -> & Hh2 & Hm2).
  exact (alarm_order h1 m1 h2 m2 Hh1 Hm1 Hh2 Hm2).
Qed.

Lemma alarms_precede_and_keep_the_order_witness :
  is_time_of_day (time_of_day 0 2) = true /\
  is_time_of_day (time_of_day 0 7) = true /\
  exists a1 a2 : datetime,
    sub_minutes (time_of_day 0 2) PRAYER_BUFFER_MINUTES = Ok a1 /\
    sub_minutes (time_of_day 0 7) PRAYER_BUFFER_MINUTES = Ok a2 /\
    datetime_lt a1 (time_of_day 0 2) = true /\
    (datetime_lt (time_of_day 0 2) (time_of_day 0 7) = true ->
     datetime_lt a1 a2 = true).
Proof.
  split; [reflexivity | split; [reflexivity |]].
  exact (alarms_precede_and_keep_the_order (time_of_day 0 2) (time_of_day 0 7)
           eq_refl eq_refl).
Defined.

(** ** The mosque fetcher *)

Section MosqueFacts.

Lemma mosque_of_plain (element : json) :
  plain_element element -> has_position element = true ->
  mosque_of element = Ok (entry_of element).
Proof.
  intros (members & -> & Htags) Hpos.
  unfold has_position in Hpos. unfold mosque_of, entry_of, name_of, field_of.
  cbn [get_default subscript].
  destruct (assoc "lat" members) as [la |]; [| discriminate].
  destruct (assoc "lon" members) as [lo |]; [| discriminate].
  destruct Htags as [-> | [tags ->]]; cbn [bind get_default assoc].
  - reflexivity.
  - destruct (assoc "name" tags); reflexivity.
Qed.

Lemma mosques_of_plain (elements : list json) :
  Forall plain_element elements ->
  mosques_of elements = Ok (map entry_of (filter has_position elements)).
Proof.
  induction 1 as [| element rest Hplain _ IH]; [reflexivity |].
  cbn [mosques_of filter].
  destruct (has_position element) eqn:Hpos.
  - rewrite (mosque_of_plain element Hplain Hpos).
    destruct Hplain as (members & -> & _).
    unfold has_position in Hpos. cbn [py_in].
    destruct (assoc "lat" members); [| discriminate].
    destruct (assoc "lon" members); [| discriminate].
    cbn [bind]. rewrite IH. reflexivity.
  - destruct Hplain as (members & -> & _).
    unfold has_position in Hpos. cbn [py_in].
    destruct (assoc "lat" members); cbn [bind];
      [destruct (assoc "lon" members); [discriminate |] |];
      cbn [bind]; exact IH.
Qed.

(** Whatever is kept came from a dict with both fields. *)
Lemma mosques_of_sound (elements : list json) :
  forall ms : list json,
    mosques_of elements = Ok ms ->
    (List.length ms <= List.length elements)%nat /\
    Forall (fun m =>
              exists (members : list (string * json)) (name la lo : json),
                In (JObj members) elements /\
                assoc "lat" members = Some la /\
                assoc "lon" members = Some lo /\
                m = JObj [("name", name); ("lat", la); ("lon", lo)]%string)
      ms.
Proof.
  induction elements as [| element rest IH]; intros ms H.
  - injection H as <-. split; [apply le_n | constructor].
  - cbn [mosques_of] in H.
    destruct (py_in "lat" element) as [has_lat |]; cbn [bind] in H;
      [| discriminate].
    assert (Hrest : forall ms', mosques_of rest = Ok ms' ->
              (List.length ms' <= List.length (element :: rest))%nat /\
              Forall (fun m =>
                exists (members : list (string * json)) (name la lo : json),
                  In (JObj members) (element :: rest) /\
                  assoc "lat" members = Some la /\
                  assoc "lon" members = Some lo /\
                  m = JObj [("name", name); ("lat", la); ("lon", lo)]%string)
                ms').
    { intros ms' Hms'. destruct (IH ms' Hms') as [Hlen Hall]. split.
      - cbn [List.length]. apply le_S. exact Hlen.
      - eapply Forall_impl; [| exact Hall].
        intros m (members & name & la & lo & Hin & Hla & Hlo & Hm).
        exists members, name, la, lo. repeat split; try assumption.
        right. exact Hin. }
    destruct has_lat; [| exact (Hrest ms H)].
    destruct (py_in "lon" element) as [keep |]; cbn [bind] in H;
      [| discriminate].
    destruct keep; [| exact (Hrest ms H)].
    destruct (mosque_of element) as [m |] eqn:Hm; cbn [bind] in H;
      [| discriminate].
    destruct (mosques_of rest) as [ms' |]; cbn [bind] in H; [| discriminate].
    injection H as <-. destruct (Hrest ms' eq_refl) as [Hlen Hall].
    split.
    + cbn [List.length]. destruct (IH ms' eq_refl) as [Hlen' _].
      apply le_n_S. exact Hlen'.
    + constructor; [| exact Hall].
      unfold mosque_of in Hm.
      destruct element; cbn [get_default bind] in Hm; try discriminate.
      destruct (get_default _ "name" _) as [name |]; cbn [bind] in Hm;
        [| discriminate].
      cbn [subscript] in Hm.
      destruct (assoc "lat" members) as [la |] eqn:Hla; cbn [bind] in Hm;
        [| discriminate].
      destruct (assoc "lon" members) as [lo |] eqn:Hlo; cbn [bind] in Hm;
        [| discriminate].
      injection Hm as <-.
      exists members, name, la, lo. repeat split; try assumption.
      left. reflexivity.
Qed.

End MosqueFacts.

(** X19. On an answer 200 whose elements are dicts (with tags, when
    present, a dict), [fetch_mosque_locations] returns, in order, one
    entry for each element that has both a lat and a lon, skipping the
    others; the entry carries that lat and lon and the name of the
    tags, or "Unnamed Mosque" when there are no tags or no name. *)
Theorem mosques_are_the_elements_with_a_position
  (net : string -> response) (lat lon : R) (radius : Z)
  (data : json) (elements : list json) :
  status_code (net overpass_url) = 200%Z ->
  body (net overpass_url) = Document data ->
  subscript data "elements" = Ok (JArr elements) ->
  Forall plain_element elements ->
  fetch_mosque_locations net lat lon radius
  = Ok (JArr (map entry_of (filter has_position elements))).
Proof.
  intros Hstatus Hbody Hel Hplain.
  unfold fetch_mosque_locations, response_json. cbv zeta.
  rewrite Hstatus, Hbody. cbn [Z.eqb Pos.eqb bind].
  rewrite Hel. cbn [bind iterate].
  rewrite (mosques_of_plain elements Hplain). reflexivity.
Qed.

Lemma mosques_are_the_elements_with_a_position_witness :
  fetch_mosque_locations
    (fun _ =>
       mkresponse 200
         (Document
            (JObj [("elements",
                    JArr [JObj [("type", JStr "node"); ("lat", JNum 24.7);
                                ("lon", JNum 46.7);
                                ("tags", JObj [("name", JStr "Al Rajhi")])];
                          JObj [("type", JStr "way")];
                          JObj [("lat", JNum 24.8); ("lon", JNum 46.6)]])
                  ]%string)))
    24.7136 46.6753 CACHE_RADIUS
  = Ok (JArr [JObj [("name", JStr "Al Rajhi"); ("lat", JNum 24.7);
                    ("lon", JNum 46.7)];
              JObj [("name", JStr "Unnamed Mosque"); ("lat", JNum 24.8);
                    ("lon", JNum 46.6)]]%string).
Proof.
  refine (mosques_are_the_elements_with_a_position
            (fun _ =>
               mkresponse 200
                 (Document
                    (JObj [("elements",
                            JArr [JObj [("type", JStr "node");
                                        ("lat", JNum 24.7);
                                        ("lon", JNum 46.7);
                                        ("tags",
                                         JObj [("name", JStr "Al Rajhi")])];
                                  JObj [("type", JStr "way")];
                                  JObj [("lat", JNum 24.8);
                                        ("lon", JNum 46.6)]])
                          ]%string)))
            24.7136 46.6753 CACHE_RADIUS _ _ eq_refl eq_refl eq_refl _).
  repeat constructor.
  - eexists. split; [reflexivity |]. right. eexists. reflexivity.
  - eexists. split; [reflexivity |]. left. reflexivity.
  - eexists. split; [reflexivity |]. left. reflexivity.
Defined.

(** X20. Whatever the shape of a decoded answer 200, when
    [fetch_mosque_locations] returns it returns a list, never longer
    than what the answer's elements iterate to, and each entry has
    exactly the keys name, lat and lon, the last two copied from a
    dict among the elements. *)
Theorem every_mosque_returned_has_a_position
  (net : string -> response) (lat lon : R) (radius : Z)
  (data elements : json) (items : list json) (r : json) :
  status_code (net overpass_url) = 200%Z ->
  response_json (net overpass_url) = Ok data ->
  subscript data "elements" = Ok elements ->
  iterate elements = Ok items ->
  fetch_mosque_locations net lat lon radius = Ok r ->
  exists ms : list json,
    r = JArr ms /\
    (List.length ms <= List.length items)%nat /\
    Forall (fun m =>
              exists (members : list (string * json)) (name la lo : json),
                In (JObj members) items /\
                assoc "lat" members = Some la /\
                assoc "lon" members = Some lo /\
                m = JObj [("name", name); ("lat", la); ("lon", lo)]%string)
      ms.
Proof.
  intros Hs Hd He Hi. unfold fetch_mosque_locations. cbv zeta.
  rewrite Hs, Hd. cbn [Z.eqb Pos.eqb bind]. rewrite He. cbn [bind].
  rewrite Hi. cbn [bind].
  destruct (mosques_of items) as [ms |] eqn:Hms; cbn [bind];
    [| discriminate].
  intros [= <-]. exists ms.
  destruct (mosques_of_sound items ms Hms) as [Hlen Hall].
  repeat split; assumption.
Qed.

Lemma every_mosque_returned_has_a_position_witness :
  exists ms : list json,
    JArr [JObj [("name", JStr "Unnamed Mosque"); ("lat", JNum 24.8);
                ("lon", JNum 46.6)]]%string = JArr ms /\
    (List.length ms <= 2)%nat.
Proof.
  destruct (every_mosque_returned_has_a_position
              (fun _ =>
                 mkresponse 200
                   (Document
                      (JObj [("elements",
                              JArr [JStr "remark";
                                    JObj [("lat", JNum 24.8);
                                          ("lon", JNum 46.6)]])]%string)))
              24.7136 46.6753 CACHE_RADIUS
              (JObj [("elements",
                      JArr [JStr "remark";
                            JObj [("lat", JNum 24.8);
                                  ("lon", JNum 46.6)]])]%string)
              (JArr [JStr "remark";
                     JObj [("lat", JNum 24.8); ("lon", JNum 46.6)]%string])
              [JStr "remark";
               JObj [("lat", JNum 24.8); ("lon", JNum 46.6)]%string]
              _ eq_refl eq_refl eq_refl eq_refl eq_refl)
    as (ms & Hr & Hlen & _).
  exists ms. split; assumption.
Defined.



(** ** The application *)

(** X22. When the service's timings (distinct labels, at least one)
    all parse, [startup] ends without error with the location label
    set, the prayer label naming the earliest timing, the mosque and
    cache labels still at their first text, and one alarm printed per
    timing, five minutes before it. *)
Theorem startup_shows_the_earliest_prayer_and_schedules_every_alarm
  (timings : list (string * json)) (e : string * datetime) (rest : schedule)
  (out : list line) :
  NoDup (map fst timings) ->
  fetch_prayer_times timings = Ok (e :: rest) ->
  startup timings out
  = (mkapp "Location permission granted."
       ("Next prayer: " ++ fst (earliest e rest))
       "Mosque status: Not checked yet." "Cache status: Not loaded yet."
       (Some (24.7136, 46.6753)%R),
     out ++ map line_of_alarm (to_alarms_spec (e :: rest) PRAYER_BUFFER_MINUTES),
     Ok tt).
Proof.
  intros Hnd Hfetch.
  destruct (parse_timings_sound timings _ _ Hfetch) as (Hlabels & Htimes & _).
  unfold startup, request_location_permission,
    fetch_prayer_times_and_schedule_alarms. cbv zeta.
  cbn [set_user_position set_location_label user_position].
  rewrite Hfetch.
  rewrite next_prayer_earliest by (rewrite Hlabels; exact Hnd).
  unfold schedule_prayer_alarms. cbn [prayer_times stdout].
  rewrite (schedule_loop_times_of_day _ Htimes). reflexivity.
Qed.

Lemma startup_shows_the_earliest_prayer_and_schedules_every_alarm_witness :
  NoDup (map fst [("Fajr", JStr "05:12"); ("Isha", JStr "19:40");
                  ("Midnight", JStr "00:03")]%string) /\
  startup [("Fajr", JStr "05:12"); ("Isha", JStr "19:40");
           ("Midnight", JStr "00:03")]%string []
  = (mkapp "Location permission granted." "Next prayer: Midnight"
       "Mosque status: Not checked yet." "Cache status: Not loaded yet."
       (Some (24.7136, 46.6753)%R),
     [ScheduledAlarm "Fajr" (time_of_day 5 7);
      ScheduledAlarm "Isha" (time_of_day 19 35);
      ScheduledAlarm "Midnight" (mkdatetime (mkdate 1899 12 31) 23 58)],
     Ok tt).
Proof.
  assert (Hnd : NoDup (map fst [("Fajr", JStr "05:12"); ("Isha", JStr "19:40");
                                ("Midnight", JStr "00:03")]%string))
    by (repeat constructor; cbn; intuition discriminate).
  split; [exact Hnd |].
  exact (startup_shows_the_earliest_prayer_and_schedules_every_alarm
           [("Fajr", JStr "05:12"); ("Isha", JStr "19:40");
            ("Midnight", JStr "00:03")]%string
           ("Fajr"%string, time_of_day 5 12)
           [("Isha", time_of_day 19 40); ("Midnight", time_of_day 0 3)]%string
           [] Hnd eq_refl).
Defined.

(** X23. When the timings do not all parse, or there are none,
    [startup] raises (a [ValueError] for no timings) after setting the
    location label, with the prayer label still reading "Fetching
    prayer times..." and no alarm printed. *)
Theorem startup_without_usable_timings_schedules_nothing
  (timings : list (string * json)) (e : exn) (out : list line) :
  fetch_prayer_times timings = Raise e \/ (timings = [] /\ e = ValueError) ->
  startup timings out
  = (mkapp "Location permission granted." "Fetching prayer times..."
       "Mosque status: Not checked yet." "Cache status: Not loaded yet."
       (Some (24.7136, 46.6753)%R),
     out, Raise e).
Proof.
  unfold startup, request_location_permission,
    fetch_prayer_times_and_schedule_alarms. cbv zeta.
  cbn [set_user_position set_location_label user_position].
  intros [Hfail | [-> ->]].
  - rewrite Hfail. reflexivity.
  - reflexivity.
Qed.

Lemma startup_without_usable_timings_schedules_nothing_witness :
  fetch_prayer_times [("Fajr", JStr "05:12 (EET)")]%string = Raise ValueError /\
  startup [("Fajr", JStr "05:12 (EET)")]%string []
  = (mkapp "Location permission granted." "Fetching prayer times..."
       "Mosque status: Not checked yet." "Cache status: Not loaded yet."
       (Some (24.7136, 46.6753)%R),
     [], Raise ValueError).
Proof.
  split; [reflexivity |].
  exact (startup_without_usable_timings_schedules_nothing
           [("Fajr", JStr "05:12 (EET)")]%string ValueError []
           (or_introl eq_refl)).
Defined.
